(** * ember-osf-web: draft-registration manager and file-list validator

    A shallow embedding of

    - [app/validators/validate-response-format.ts] ([validateFileList]),
    - the [DraftRegistrationManagerComponent] (tasks [initializePageManagers],
      [onInput], [submitDraftRegistration]; computed properties
      [nextPageParam], [prevPageParam], [currentPageManager], [isValid]),
    - the [SchemaBlockGroup] interface,

    followed by the properties of the design document that concern them.

    JavaScript objects used as dictionaries are [gmap string _]; arrays are
    lists; a property that may be [undefined] is an [option]; a statement that
    can throw returns a [Completion]; promises that the component awaits are
    given by the value they settle to. *)

From Stdlib Require Import ZArith Ascii String List Lia.
From stdpp Require Import base option list gmap strings.

Set Warnings "-register-all".

Local Open Scope string_scope.
Local Open Scope Z_scope.

(** ** JavaScript values and completions *)

Module Js.

(** The values a registration response can hold. *)
Inductive value : Type :=
| Undefined
| Bool (b : bool)
| Num (z : Z)
| Str (s : string).

(** Reasons a statement can complete abruptly, or a promise reject. *)
Inductive error : Type :=
| TypeError
| AssertionFailed (msg : string)
| Rejection (reason : string).

(** Outcome of running a statement: normal completion or a throw. *)
Inductive Completion (A : Type) : Type :=
| Normal (a : A)
| Thrown (e : error).
Arguments Normal {A} a.
Arguments Thrown {A} e.

(** What a promise settles to. *)
Inductive Settled (A : Type) : Type :=
| Fulfilled (a : A)
| Rejected (e : error).
Arguments Fulfilled {A} a.
Arguments Rejected {A} e.

(** [Boolean(x)] for a property that is a boolean or [undefined]. *)
Definition Boolean (x : option bool) : bool :=
  match x with
  | Some b => b
  | None => false
  end.

(** [arr[i]] for a number [i] that is an integer: [undefined] outside
    [0 .. arr.length - 1]. *)
Definition index {A : Type} (arr : list A) (i : Z) : option A :=
  if i <? 0 then None else arr !! Z.to_nat i.

(** [arr.length] as a JavaScript number. *)
Definition length {A : Type} (arr : list A) : Z := Z.of_nat (List.length arr).

(** [arr.join(sep)] on an array of strings. *)
Definition join (sep : string) (arr : list string) : string :=
  String.concat sep arr.

(** The double-quote character, as a one-character string. *)
Definition dquote : string := String (ascii_of_nat 34) EmptyString.

End Js.

Import Js.

#[global] Instance value_eq_dec : EqDecision Js.value.
Proof. solve_decision. Defined.

#[global] Instance error_eq_dec : EqDecision Js.error.
Proof. solve_decision. Defined.

(** ** The file-list validator ([validate-response-format.ts]) *)

(** The part of the [Node] model the validator reads.  [children] is the
    [hasMany('node', inverse: 'parent')] relationship of the model; the
    validator itself never follows it. *)
Inductive NodeModel : Type :=
  mkNode (id : string) (isRoot : bool) (children : list NodeModel).

Definition node_id (n : NodeModel) : string :=
  match n with mkNode i _ _ => i end.

Definition node_isRoot (n : NodeModel) : bool :=
  match n with mkNode _ r _ => r end.

Definition node_children (n : NodeModel) : list NodeModel :=
  match n with mkNode _ _ c => c end.

(** A [File] record as the validator sees it: [isError] is the flag the
    store sets when the last request for the record failed, [target] is
    [file.belongsTo('target').id()] ([None] for [null]). *)
Record File : Type := mkFile {
  name : string;
  isError : bool;
  target : option string;
}.

(** The validator resolves to [true] or to an array of messages. *)
Inductive ValidationResult : Type :=
| ValidTrue
| ValidationErrors (messages : list string).

(** The [for ... of] loop of lines 15-21, with the two arrays it pushes to. *)
Fixpoint classifyFiles (nodeId : string) (files : list File)
    (detachedFiles deletedFiles : list string) : list string * list string :=
  match files with
  | [] => (detachedFiles, deletedFiles)
  | file :: rest =>
      if isError file then
        classifyFiles nodeId rest detachedFiles (deletedFiles ++ [name file])%list
      else if bool_decide (target file ≠ Some nodeId) then
        classifyFiles nodeId rest (detachedFiles ++ [name file])%list deletedFiles
      else
        classifyFiles nodeId rest detachedFiles deletedFiles
  end.

Definition projectOrComponent (node : NodeModel) : string :=
  if node_isRoot node then "project" else "component".

(** The template literal of lines 26-27 (the backslash joins the two source
    lines). *)
Definition detachedMessage (detachedFiles : list string) (poc : string) : string :=
  "File(s) " +:+ dquote +:+ join ", " detachedFiles +:+ dquote
  +:+ " no longer belong to this " +:+ poc
  +:+ " or any of its registered components.".

(** The template literal of line 32. *)
Definition deletedMessage (deletedFiles : list string) (poc : string) : string :=
  "File(s) " +:+ dquote +:+ join ", " deletedFiles +:+ dquote
  +:+ " were deleted from this " +:+ poc +:+ ".".

(** [isEmpty] of [@ember/utils] on an array. *)
Definition isEmpty {A : Type} (arr : list A) : bool :=
  match arr with [] => true | _ => false end.

(** [validateFileList(node)(_, newValue)].

    [reload] is the store: it maps a file record to the state the record is
    in once [file.reload()] has settled ([allSettled] waits for every reload
    and swallows rejections; a failed reload leaves [isError] set).  The
    result is paired with the list of records for which a reload was
    requested. *)
Definition validateFileList (reload : File -> File)
    (node : option NodeModel) (newValue : option (list File))
    : ValidationResult * list File :=
  match newValue, node with
  | Some files, Some node =>
      let reloaded := map reload files in
      let '(detachedFiles, deletedFiles) :=
        classifyFiles (node_id node) reloaded [] [] in
      let poc := projectOrComponent node in
      let validationErrors : list string := [] in
      let validationErrors :=
        if negb (isEmpty detachedFiles)
        then (validationErrors ++ [detachedMessage detachedFiles poc])%list
        else validationErrors in
      let validationErrors :=
        if negb (isEmpty deletedFiles)
        then (validationErrors ++ [deletedMessage deletedFiles poc])%list
        else validationErrors in
      (if isEmpty validationErrors then ValidTrue
       else ValidationErrors validationErrors, files)
  | _, _ => (ValidTrue, [])
  end.

(** The classification as the design document words it: a file is detached
    when it belongs neither to the node nor to one of its descendants. *)
Fixpoint subtree_ids (n : NodeModel) : list string :=
  match n with
  | mkNode i _ cs => i :: flat_map subtree_ids cs
  end.

Definition spec_belongs (node : NodeModel) (file : File) : bool :=
  match target file with
  | Some t => bool_decide (t ∈ subtree_ids node)
  | None => false
  end.

Definition spec_deleted (file : File) : bool := isError file.

Definition spec_detached (node : NodeModel) (file : File) : bool :=
  negb (spec_belongs node file).

(** ** Data model of the draft-registration manager *)

(** Modelled from the spec: the [SchemaBlock] model is not among the sources.
    An atomic unit of a registration form, tagged with a group key and a
    block type. *)
Record SchemaBlock : Type := mkSchemaBlock {
  blockType : option string;
  blockGroupKey : option string;
  blockResponseKey : option string;
}.

(** The [SchemaBlockGroup] interface; every member is optional. *)
Record SchemaBlockGroup : Type := mkSchemaBlockGroup {
  inputType : option string;
  labelBlock : option SchemaBlock;
  inputBlock : option SchemaBlock;
  optionBlocks : option (list SchemaBlock);
  schemaBlockGroupKey : option string;
  registrationResponseKey : option string;
}.

(** A [PageResponse] maps response keys to answers. *)
Abbreviation PageResponse := (gmap string Js.value).

(** Modelled from the spec: the [PageManager] class is not among the sources.
    These are the members the component reads; [changeSet] is the staged view
    of the page's answers, read with [changeset.get(key)]. *)
Record PageManager : Type := mkPageManager {
  schemaBlockGroups : option (list SchemaBlockGroup);
  changeSet : option PageResponse;
  pageHeadingText : option string;
  pageIsValid : option bool;
}.

(** [changeset.get(key)]; an absent key reads as [undefined]. *)
Definition changeset_get (changeset : PageResponse) (key : option string) : Js.value :=
  match key with
  | Some k => default Undefined (changeset !! k)
  | None => Undefined
  end.

(** A reference to a JavaScript object holding a response mapping.  The
    component, the draft and the page managers are handed the same object, so
    the mappings live in a store and are named by reference. *)
Definition ref : Type := nat.

Record RegistrationSchema : Type := mkRegistrationSchema {
  (** what [loadAll('schemaBlocks')] settles to *)
  schemaBlocks : Settled (list SchemaBlock);
}.

Module Draft.
(** The [DraftRegistration] members the component uses.  [save()] is an
    operation of the external data layer and is given where it is called. *)
Record t : Type := mk {
  registrationSchema : Settled RegistrationSchema;
  registrationResponses : ref;
}.
End Draft.

(** The component's own properties. *)
Record Component : Type := mkComponent {
  modelTaskInstance : option (Settled Draft.t);
  draftRegistration : option Draft.t;
  currentPage : Z;
  lastPage : option Z;
  registrationResponses : ref;
  pageManagers : list PageManager;
}.

(** Everything a task can read or change: the object store, the component,
    and the calls made to the two external collaborators. *)
Record World : Type := mkWorld {
  heap : gmap ref PageResponse;
  this : Component;
  updateRouteCalls : list (option string);
  saveCalls : list PageResponse;
}.

(** The reference of the [{}] a new component starts with. *)
Definition own_responses : ref := 0%nat.

(** A freshly created component: [registrationResponses = {}],
    [pageManagers = []], [draftRegistration] and [lastPage] not yet set. *)
Definition newComponent (model : option (Settled Draft.t)) (page : Z) : Component :=
  {| modelTaskInstance := model;
     draftRegistration := None;
     currentPage := page;
     lastPage := None;
     registrationResponses := own_responses;
     pageManagers := [] |}.

(** ** Tasks: state and exceptions *)

Definition Task (A : Type) : Type := World -> Completion A * World.

#[global] Instance Task_ret : MRet Task := fun A a w => (Normal a, w).

#[global] Instance Task_bind : MBind Task := fun A B k m w =>
  match m w with
  | (Normal a, w') => k a w'
  | (Thrown e, w') => (Thrown e, w')
  end.

Definition throw {A : Type} (e : Js.error) : Task A := fun w => (Thrown e, w).

Definition getThis : Task Component := fun w => (Normal (this w), w).

Definition getHeap : Task (gmap ref PageResponse) := fun w => (Normal (heap w), w).

Definition modifyThis (f : Component -> Component) : Task unit := fun w =>
  (Normal tt,
   {| heap := heap w; this := f (this w);
      updateRouteCalls := updateRouteCalls w; saveCalls := saveCalls w |}).

(** [yield promise]: resumes with the value, or throws the rejection. *)
Definition yield {A : Type} (p : Settled A) : Task A :=
  match p with
  | Fulfilled a => mret a
  | Rejected e => throw e
  end.

(** [assert(msg, test)] of [@ember/debug]. *)
Definition assert (msg : string) (test : bool) : Task unit :=
  if test then mret tt else throw (AssertionFailed msg).

(** [arr.forEach(f)]. *)
Fixpoint forEach {A : Type} (arr : list A) (f : A -> Task unit) : Task unit :=
  match arr with
  | [] => mret tt
  | x :: rest => f x;; forEach rest f
  end.

(** [Object.assign(target, { [key]: v })]: one own property copied onto the
    object [target] refers to. *)
Definition Object_assign (target : ref) (key : string) (v : Js.value) : Task unit := fun w =>
  (Normal tt,
   {| heap := alter (fun obj => <[key := v]> obj) target (heap w);
      this := this w;
      updateRouteCalls := updateRouteCalls w; saveCalls := saveCalls w |}).

(** [this.updateRoute(headingText)]: the router notifier, recorded. *)
Definition updateRoute (headingText : option string) : Task unit := fun w =>
  (Normal tt,
   {| heap := heap w; this := this w;
      updateRouteCalls := (updateRouteCalls w ++ [headingText])%list;
      saveCalls := saveCalls w |}).

(** [yield this.draftRegistration.save()]: the draft's current
    [registrationResponses] object is sent to the data layer, and the call
    settles as [outcome] says.  Without a draft the member access throws. *)
Definition draft_save (outcome : Settled unit) : Task unit := fun w =>
  match draftRegistration (this w) with
  | None => (Thrown TypeError, w)
  | Some draft =>
      let payload := default ∅ (heap w !! Draft.registrationResponses draft) in
      yield outcome
        {| heap := heap w; this := this w;
           updateRouteCalls := updateRouteCalls w;
           saveCalls := (saveCalls w ++ [payload])%list |}
  end.

(** Field updates used by [setProperties]. *)
Definition set_draftRegistration (d : Draft.t) (c : Component) : Component :=
  {| modelTaskInstance := modelTaskInstance c;
     draftRegistration := Some d;
     currentPage := currentPage c;
     lastPage := lastPage c;
     registrationResponses := registrationResponses c;
     pageManagers := pageManagers c |}.

Definition set_lastPage_responses (n : Z) (r : ref) (c : Component) : Component :=
  {| modelTaskInstance := modelTaskInstance c;
     draftRegistration := draftRegistration c;
     currentPage := currentPage c;
     lastPage := Some n;
     registrationResponses := r;
     pageManagers := pageManagers c |}.

Definition set_pageManagers (pms : list PageManager) (c : Component) : Component :=
  {| modelTaskInstance := modelTaskInstance c;
     draftRegistration := draftRegistration c;
     currentPage := currentPage c;
     lastPage := lastPage c;
     registrationResponses := registrationResponses c;
     pageManagers := pms |}.

Definition set_currentPage (page : Z) (c : Component) : Component :=
  {| modelTaskInstance := modelTaskInstance c;
     draftRegistration := draftRegistration c;
     currentPage := page;
     lastPage := lastPage c;
     registrationResponses := registrationResponses c;
     pageManagers := pageManagers c |}.

(** [this.draftRegistration.setProperties({ registrationResponses })]. *)
Definition draft_set_registrationResponses (r : ref) (c : Component) : Component :=
  match draftRegistration c with
  | Some d =>
      set_draftRegistration
        {| Draft.registrationSchema := Draft.registrationSchema d;
           Draft.registrationResponses := r |} c
  | None => c
  end.

(** ** Computed properties *)

Definition currentPageManager (c : Component) : option PageManager :=
  if Js.length (pageManagers c) >=? currentPage c
  then Js.index (pageManagers c) (currentPage c - 1)
  else None.

Definition isValid (c : Component) : bool :=
  forallb (fun pageManager => Boolean (pageIsValid pageManager)) (pageManagers c).

Section PageParams.

(** [getPageParam] of [utils/page-param], which is not among the sources:
    any function of the page number and the heading text. *)
Variable getPageParam : Z -> option string -> string.

(** Destructuring [pageManagers[i]] throws when there is no such element. *)
Definition nextPageParam (c : Component) : Completion string :=
  if negb (Js.length (pageManagers c) =? 0)
     && negb (bool_decide (lastPage c = Some (currentPage c)))
  then
    match Js.index (pageManagers c) (currentPage c) with
    | Some pm => Normal (getPageParam (currentPage c + 1) (pageHeadingText pm))
    | None => Thrown TypeError
    end
  else Normal "".

Definition prevPageParam (c : Component) : Completion string :=
  if negb (Js.length (pageManagers c) =? 0) && (currentPage c >? 1)
  then
    let pageIndex := currentPage c - 2 in
    match Js.index (pageManagers c) pageIndex with
    | Some pm => Normal (getPageParam (currentPage c - 1) (pageHeadingText pm))
    | None => Thrown TypeError
    end
  else Normal "".

End PageParams.

(** The page with 1-indexed number [n], if there is one. *)
Definition page_number (c : Component) (n : Z) : option PageManager :=
  if n <? 1 then None else pageManagers c !! Z.to_nat (n - 1).

(** ** Tasks of the component *)

Section Initialization.

(** The two collaborators from [packages/registration-schema], which are
    not among the sources: the partitioner and the [PageManager]
    constructor, which is handed the page's blocks and the response object
    and reads the latter to seed its change-set. *)
Variable getPages : list SchemaBlock -> list (list SchemaBlock).
Variable newPageManager : list SchemaBlock -> PageResponse -> PageManager.

(** [initializePageManagers], performed on [init]. *)
Definition initializePageManagers : Task unit :=
  c ← getThis;
  assert "TaskInstance<DraftRegistration> is required!"
    (bool_decide (is_Some (modelTaskInstance c)));;
  model ← from_option yield (throw TypeError) (modelTaskInstance c);
  modifyThis (set_draftRegistration model);;

  c ← getThis;
  draft ← from_option mret (throw TypeError) (draftRegistration c);
  registrationSchema ← yield (Draft.registrationSchema draft);
  blocks ← yield (schemaBlocks registrationSchema);
  let pages := getPages blocks in
  let responses := Draft.registrationResponses draft in

  modifyThis (set_lastPage_responses (Js.length pages) responses);;

  c ← getThis;
  h ← getHeap;
  let managers :=
    map (fun pageSchemaBlocks =>
           newPageManager pageSchemaBlocks
             (default ∅ (h !! registrationResponses c)))
        pages in

  match managers with
  | first :: _ => updateRoute (pageHeadingText first)
  | [] => mret tt
  end;;

  modifyThis (set_pageManagers managers).

End Initialization.

(** The literal property name in the object literal of [onInput], line 69. *)
Definition onInput_literal_key : string := "registrationResponseKey".

(** The debounce delay of [onInput], line 62, in milliseconds. *)
Definition onInput_timeout : Z := 500.

(** The arrow function handed to [forEach] in [onInput], lines 66-71: the
    object literal has the one property [registrationResponseKey], whose value
    is the change-set's value for the group's key. *)
Definition onInput_merge (pm : PageManager) (group : SchemaBlockGroup) : Task unit :=
  changeset ← from_option mret (throw TypeError) (changeSet pm);
  c ← getThis;
  Object_assign (registrationResponses c)
    onInput_literal_key
    (changeset_get changeset (registrationResponseKey group)).

(** [onInput] from line 64 on, that is, once [yield timeout(500)] has
    resumed.  [saveOutcome] is what [save()] settles to. *)
Definition onInput (saveOutcome : Settled unit) : Task unit :=
  c ← getThis;
  match currentPageManager c with
  | Some pm =>
      match schemaBlockGroups pm with
      | Some groups =>
          forEach groups (onInput_merge pm);;

          c ← getThis;
          let responses := registrationResponses c in
          modifyThis (draft_set_registrationResponses responses);;

          draft_save saveOutcome
      | None => mret tt
      end
  | None => mret tt
  end.

(** [submitDraftRegistration]. *)
Definition submitDraftRegistration (saveOutcome : Settled unit) : Task unit :=
  draft_save saveOutcome.

(** What the design document asks of the merge step instead: each group's
    own key receives the change-set's value for that key. *)
Definition spec_merge (groups : list SchemaBlockGroup) (changeset responses : PageResponse)
    : PageResponse :=
  fold_left
    (fun acc group =>
       match registrationResponseKey group with
       | Some k => <[k := changeset_get changeset (Some k)]> acc
       | None => acc
       end)
    groups responses.

(** ** Performing [onInput] over time *)

(** ember-concurrency decides what a [perform] does to the instances of the
    same task that are still running.  A task declared with no modifier runs
    every instance to completion, side by side; [.restartable()] cancels the
    running instances before it starts the new one. *)
Inductive TaskModifier : Type :=
| Unmodified
| Restartable.

(** [onInput] is declared as [task(function* ...)] with no modifier. *)
Definition onInput_modifier : TaskModifier := Unmodified.

(** The instances of [onInput] suspended in [timeout(500)], by the time (in
    milliseconds) at which they resume, oldest first; and the world. *)
Record Scheduler : Type := mkScheduler {
  sleeping : list Z;
  world : World;
}.

(** An instance resumes and runs to its end, [save()] settling at once; a
    throw ends that instance only. *)
Definition resume (saveOutcome : Settled unit) (w : World) : World :=
  snd (onInput saveOutcome w).

(** Let time pass until [now]: every instance due by then (an instance due
    at [now] included) resumes, in order. *)
Definition advance (saveOutcome : Settled unit) (now : Z) (s : Scheduler) : Scheduler :=
  let due := filter (fun t => t <= now) (sleeping s) in
  let later := filter (fun t => ~ t <= now) (sleeping s) in
  {| sleeping := later;
     world := fold_left (fun w _ => resume saveOutcome w) due (world s) |}.

(** An input event at time [now]: [onInput.perform()]. *)
Definition perform (modifier : TaskModifier) (saveOutcome : Settled unit)
    (s : Scheduler) (now : Z) : Scheduler :=
  let s' := advance saveOutcome now s in
  let kept :=
    match modifier with
    | Unmodified => sleeping s'
    | Restartable => []
    end in
  {| sleeping := (kept ++ [now + onInput_timeout])%list; world := world s' |}.

(** No more input: every suspended instance eventually resumes. *)
Definition settle (saveOutcome : Settled unit) (s : Scheduler) : Scheduler :=
  {| sleeping := [];
     world := fold_left (fun w _ => resume saveOutcome w) (sleeping s) (world s) |}.

(** The world after input events at the given times and a quiet period. *)
Definition inputs (modifier : TaskModifier) (saveOutcome : Settled unit)
    (times : list Z) (w : World) : World :=
  world (settle saveOutcome
           (fold_left (perform modifier saveOutcome) times
                      {| sleeping := []; world := w |})).

(** Number of persistence calls made to the draft resource so far. *)
Definition persistenceCalls (w : World) : nat := List.length (saveCalls w).

(** All events of a burst fall within one debounce window of their
    predecessor. *)
Fixpoint within_window (times : list Z) : Prop :=
  match times with
  | t1 :: ((t2 :: _) as rest) => t1 <= t2 < t1 + onInput_timeout /\ within_window rest
  | _ => True
  end.

(** Every event comes after the window of its predecessor has elapsed. *)
Fixpoint beyond_window (times : list Z) : Prop :=
  match times with
  | t1 :: ((t2 :: _) as rest) => t1 + onInput_timeout < t2 /\ beyond_window rest
  | _ => True
  end.

(** ** Sample data *)

Module Sample.

Definition group (key : string) : SchemaBlockGroup :=
  {| inputType := None; labelBlock := None; inputBlock := None;
     optionBlocks := None; schemaBlockGroupKey := None;
     registrationResponseKey := Some key |}.

(** A page with the two questions [q1] and [q2], answered in its
    change-set. *)
Definition page1 : PageManager :=
  {| schemaBlockGroups := Some [group "q1"; group "q2"];
     changeSet := Some (<["q1" := Str "yes"]> (<["q2" := Num 7]> ∅));
     pageHeadingText := Some "First page";
     pageIsValid := Some true |}.

Definition page2 : PageManager :=
  {| schemaBlockGroups := Some [group "q3"];
     changeSet := Some (<["q3" := Bool false]> ∅);
     pageHeadingText := Some "Second page";
     pageIsValid := Some false |}.

Definition draft_responses : ref := 1%nat.

Definition draft : Draft.t :=
  {| Draft.registrationSchema :=
       Fulfilled {| schemaBlocks := Fulfilled [] |};
     Draft.registrationResponses := draft_responses |}.

(** A component after initialization, showing page [page] of two. *)
Definition ready (page : Z) : Component :=
  {| modelTaskInstance := Some (Fulfilled draft);
     draftRegistration := Some draft;
     currentPage := page;
     lastPage := Some 2;
     registrationResponses := draft_responses;
     pageManagers := [page1; page2] |}.

Definition ready_world (page : Z) : World :=
  {| heap := <[own_responses := ∅]> (<[draft_responses := ∅]> ∅);
     this := ready page;
     updateRouteCalls := [];
     saveCalls := [] |}.

(** A page with the single question [q1]; nothing answered before. *)
Definition single : PageManager :=
  {| schemaBlockGroups := Some [group "q1"];
     changeSet := Some (<["q1" := Str "yes"]> ∅);
     pageHeadingText := Some "Only page";
     pageIsValid := Some true |}.

Definition single_world : World :=
  {| heap := <[own_responses := ∅]> (<[draft_responses := ∅]> ∅);
     this :=
       {| modelTaskInstance := Some (Fulfilled draft);
          draftRegistration := Some draft;
          currentPage := 1;
          lastPage := Some 1;
          registrationResponses := draft_responses;
          pageManagers := [single] |};
     updateRouteCalls := [];
     saveCalls := [] |}.

(** A component that has not been initialized yet. *)
Definition fresh_world (model : option (Settled Draft.t)) (page : Z) : World :=
  {| heap := <[own_responses := ∅]> (<[draft_responses := ∅]> ∅);
     this := newComponent model page;
     updateRouteCalls := [];
     saveCalls := [] |}.

(** Stand-ins for the collaborators that are not among the sources, for
    the examples only: a page-param that shows the heading, a partitioner
    that starts a page at each [page-heading] block, and a page manager that
    takes its heading from the first block of its page. *)
Definition getPageParam (pageNumber : Z) (headingText : option string) : string :=
  "page-" +:+ default "untitled" headingText.

Definition isHeading (b : SchemaBlock) : bool :=
  bool_decide (blockType b = Some "page-heading").

Definition getPages (blocks : list SchemaBlock) : list (list SchemaBlock) :=
  let '(current, pages) :=
    fold_right
      (fun b '(current, pages) =>
         if isHeading b then ([], (b :: current) :: pages)
         else (b :: current, pages))
      ([], []) blocks in
  match current with
  | [] => pages
  | _ :: _ => current :: pages
  end.

Definition newPageManager (blocks : list SchemaBlock) (responses : PageResponse)
    : PageManager :=
  {| schemaBlockGroups :=
       Some (map (fun b =>
                    {| inputType := None; labelBlock := Some b; inputBlock := None;
                       optionBlocks := None;
                       schemaBlockGroupKey := blockGroupKey b;
                       registrationResponseKey := blockResponseKey b |})
                 blocks);
     changeSet := Some responses;
     pageHeadingText := head blocks ≫= blockGroupKey;
     pageIsValid := Some true |}.

Definition heading (title : string) : SchemaBlock :=
  {| blockType := Some "page-heading"; blockGroupKey := Some title;
     blockResponseKey := None |}.

Definition question (key : string) : SchemaBlock :=
  {| blockType := Some "short-text-input"; blockGroupKey := Some key;
     blockResponseKey := Some key |}.

(** A schema with two heading blocks, and a draft of it. *)
Definition two_pages : list SchemaBlock :=
  [heading "Study"; question "q1"; heading "Design"; question "q2"; question "q3"].

Definition draft_of (blocks : list SchemaBlock) : Draft.t :=
  {| Draft.registrationSchema := Fulfilled {| schemaBlocks := Fulfilled blocks |};
     Draft.registrationResponses := draft_responses |}.

(** A project [n] with one component [child]; [sib] is another node. *)
Definition nodeN : NodeModel := mkNode "n" true [mkNode "child" false []].

Definition fileA : File := mkFile "a.txt" false (Some "n").
Definition fileB : File := mkFile "b.txt" false (Some "sib").
Definition fileC : File := mkFile "c.txt" false (Some "n").
(** a file of the component *)
Definition fileD : File := mkFile "d.txt" false (Some "child").
(** a file of another node whose record is already in the error state *)
Definition fileE : File := mkFile "e.txt" true (Some "sib").

(** A store in which reloading [c.txt] fails and every other reload
    returns the record as it was. *)
Definition server (f : File) : File :=
  if bool_decide (name f = "c.txt")
  then {| name := name f; isError := true; target := target f |}
  else f.

End Sample.

(** What the validator resolves to, given the names listed in each
    category. *)
Definition validationResult (poc : string) (detachedNames deletedNames : list string)
    : ValidationResult :=
  match detachedNames, deletedNames with
  | [], [] => ValidTrue
  | _ :: _, [] => ValidationErrors [detachedMessage detachedNames poc]
  | [], _ :: _ => ValidationErrors [deletedMessage deletedNames poc]
  | _ :: _, _ :: _ =>
      ValidationErrors [detachedMessage detachedNames poc;
                        deletedMessage deletedNames poc]
  end.

(** ** Computed properties of the [Node] model *)

Module Node.

(** Modelled from the spec: the [Permission] enum is declared in
    [osf-model], which is not among the sources; the model names its members
    [Write] and [Admin], and [Read] stands for any other permission. *)
Inductive Permission : Type :=
| Read
| Write
| Admin.

#[global] Instance Permission_eq_dec : EqDecision Permission.
Proof. solve_decision. Defined.

Inductive NodeType : Type :=
| Fork
| Generic
| Registration.

(** The attributes the computed properties read.  [modelName] is
    [constructor.modelName]; [currentUserPermissions] is [None] when the
    attribute is not an array. *)
Record t : Type := mk {
  modelName : string;
  fork : bool;
  registration : bool;
  currentUserPermissions : option (list Permission);
}.

(** [@alias('fork') isFork]. *)
Definition isFork (n : t) : bool := fork n.

(** [@equal('constructor.modelName', 'node') isProject]. *)
Definition isProject (n : t) : bool := bool_decide (modelName n = "node").

(** [@equal('constructor.modelName', 'registration') isRegistration]. *)
Definition isRegistration (n : t) : bool := bool_decide (modelName n = "registration").

(** [Array.isArray(perms) && perms.includes(p)]. *)
Definition hasPermission (p : Permission) (n : t) : bool :=
  match currentUserPermissions n with
  | Some perms => bool_decide (p ∈ perms)
  | None => false
  end.

Definition currentUserCanEdit (n : t) : bool := hasPermission Write n.

Definition currentUserIsAdmin (n : t) : bool := hasPermission Admin n.

Definition nodeType (n : t) : NodeType :=
  if isRegistration n then Registration
  else if isFork n then Fork
  else Generic.

End Node.

(** The world once line 74 of [onInput] has handed the draft the component's
    response object. *)
Definition handDraft (w : World) : World :=
  {| heap := heap w;
     this := draft_set_registrationResponses (registrationResponses (this w)) (this w);
     updateRouteCalls := updateRouteCalls w;
     saveCalls := saveCalls w |}.


(** The completion of a [yield] on a promise that settles as [outcome]. *)
Definition settled (outcome : Settled unit) : Completion unit :=
  match outcome with
  | Fulfilled _ => Normal tt
  | Rejected e => Thrown e
  end.

(** The value stored under [key] in the object that [r] refers to. *)
Definition read (h : gmap ref PageResponse) (r : ref) (key : string) : option Js.value :=
  h !! r ≫= fun obj => obj !! key.

(** What [onInput] needs in order to reach [save()]: a current page manager
    with its groups and its change-set, and the draft. *)
Definition canSave (c : Component) : Prop :=
  exists pm groups changeset draft,
    currentPageManager c = Some pm
    /\ schemaBlockGroups pm = Some groups
    /\ changeSet pm = Some changeset
    /\ draftRegistration c = Some draft.

(** * Properties *)

(** ** The file-list validator *)

(** The loop sorts the files into the two arrays in list order: a file whose
    reload failed goes to [deletedFiles], any other file whose target is not
    the node itself goes to [detachedFiles]. *)
Lemma classifyFiles_filter (nodeId : string) (files : list File)
    (detachedFiles deletedFiles : list string) :
  classifyFiles nodeId files detachedFiles deletedFiles =
  ((detachedFiles ++
      map name (filter (fun f => isError f = false /\ target f ≠ Some nodeId) files))%list,
   (deletedFiles ++ map name (filter (fun f => isError f = true) files))%list).
Proof.
  revert detachedFiles deletedFiles.
  induction files as [|file rest IH]; intros det del; simpl.
  - by rewrite !app_nil_r.
  - destruct (isError file) eqn:Herr.
    + rewrite IH, filter_cons_False by (intros [? _]; congruence).
      rewrite filter_cons_True by done.
      simpl. by rewrite <- app_assoc.
    + case_bool_decide as Htarget.
      * rewrite IH, filter_cons_True by done.
        rewrite filter_cons_False by (rewrite Herr; done).
        simpl. by rewrite <- app_assoc.
      * rewrite IH, filter_cons_False by (intros [_ ?]; contradiction).
        rewrite filter_cons_False by (rewrite Herr; done).
        done.
Qed.

(** The validator's answer in terms of the two filtered lists. *)
Lemma validateFileList_filter (reload : File -> File) (node : NodeModel)
    (files : list File) :
  validateFileList reload (Some node) (Some files) =
  (validationResult (projectOrComponent node)
     (map name (filter (fun f => isError f = false /\ target f ≠ Some (node_id node))
                       (map reload files)))
     (map name (filter (fun f => isError f = true) (map reload files))),
   files).
Proof.
  unfold validateFileList. rewrite classifyFiles_filter. simpl.
  destruct (map name (filter _ _)) as [|d ds];
    destruct (map name (filter _ (map reload files))) as [|x xs]; reflexivity.
Qed.

(** A file that belongs to the node or one of its descendants has a
    target; a file whose target is the node itself is never detached in the
    design document's sense. *)
Lemma spec_detached_not_own (node : NodeModel) (file : File) :
  spec_detached node file = true -> target file ≠ Some (node_id node).
Proof.
  unfold spec_detached, spec_belongs. intros H Heq. rewrite Heq in H.
  destruct node as [i r cs]. simpl in H.
  rewrite bool_decide_eq_true_2 in H; [discriminate | left].
Qed.

(** C3 (as amended).  The validator reloads every file and answers with the
    messages for two lists of reloaded files: the deleted ones, which are
    exactly those whose reload failed, and the detached ones, which are never
    deleted ones nor files of the node itself and which include every file that
    reloaded and belongs neither to the node nor to one of its descendants; the
    answer is [true] exactly when both lists are empty.  For [A] of the node,
    [B] of a sibling and [C] failing to reload, the answer is one detached
    message naming [B] and one deleted message naming [C]. *)
Theorem validateFileList_classification (reload : File -> File) (node : NodeModel)
    (files : list File) :
  (exists detached deleted : list File,
      validateFileList reload (Some node) (Some files) =
        (validationResult (projectOrComponent node)
           (map name detached) (map name deleted), files)
      /\ deleted = filter (fun f => spec_deleted f = true) (map reload files)
      /\ (forall f, f ∈ detached ->
            f ∈ map reload files /\ spec_deleted f = false
            /\ target f ≠ Some (node_id node))
      /\ (forall f, f ∈ map reload files -> spec_deleted f = false ->
            spec_detached node f = true -> f ∈ detached)
      /\ (fst (validateFileList reload (Some node) (Some files)) = ValidTrue
          <-> detached = [] /\ deleted = []))
  /\ (forall A B C : File,
        files = [A; B; C] ->
        isError (reload A) = false -> target (reload A) = Some (node_id node) ->
        isError (reload B) = false -> spec_detached node (reload B) = true ->
        isError (reload C) = true ->
        validateFileList reload (Some node) (Some files) =
          (ValidationErrors
             [detachedMessage [name (reload B)] (projectOrComponent node);
              deletedMessage [name (reload C)] (projectOrComponent node)],
           files)).
Proof.
  split.
  - exists (filter (fun f => isError f = false /\ target f ≠ Some (node_id node))
                   (map reload files)),
           (filter (fun f => isError f = true) (map reload files)).
    split; [apply validateFileList_filter|].
    split; [reflexivity|].
    split.
    { intros f Hf. apply list_elem_of_filter in Hf as [[Herr Htarget] Hin].
      by repeat split. }
    split.
    { intros f Hin Herr Hdet. apply list_elem_of_filter.
      split; [|done]. split; [done|]. by apply spec_detached_not_own. }
    rewrite validateFileList_filter. simpl.
    destruct (filter _ _) as [|d ds]; destruct (filter _ (map reload files)) as [|x xs];
      simpl; split; try done; intros [? ?]; done.
  - intros A B C -> HA HAt HB HBt HC.
    rewrite validateFileList_filter. simpl.
    apply spec_detached_not_own in HBt.
    rewrite (filter_cons_False _ (reload A)) by (intros [_ ?]; contradiction).
    rewrite (filter_cons_True _ (reload B)) by done.
    rewrite (filter_cons_False _ (reload C)) by (intros [? _]; congruence).
    rewrite (filter_cons_False _ (reload A)) by (rewrite HA; done).
    rewrite (filter_cons_False _ (reload B)) by (rewrite HB; done).
    rewrite (filter_cons_True _ (reload C)) by done.
    reflexivity.
Qed.

Lemma validateFileList_classification_witness :
  validateFileList Sample.server (Some Sample.nodeN)
    (Some [Sample.fileA; Sample.fileB; Sample.fileC]) =
  (ValidationErrors
     [detachedMessage ["b.txt"] "project"; deletedMessage ["c.txt"] "project"],
   [Sample.fileA; Sample.fileB; Sample.fileC]).
Proof.
  exact (proj2 (validateFileList_classification Sample.server Sample.nodeN
                  [Sample.fileA; Sample.fileB; Sample.fileC])
               Sample.fileA Sample.fileB Sample.fileC
               eq_refl eq_refl eq_refl eq_refl eq_refl eq_refl).
Defined.

(** C3 as stated fails.  A file of another node whose reload failed no longer
    belongs to the node or its descendants, so the classification of the
    design document lists it as detached as well as deleted; the validator
    answers with the deleted message alone. *)
Lemma validateFileList_spec_classification_fails :
  validateFileList id (Some Sample.nodeN) (Some [Sample.fileE]) ≠
  (validationResult (projectOrComponent Sample.nodeN)
     (map name (filter (fun f => spec_detached Sample.nodeN f = true) [Sample.fileE]))
     (map name (filter (fun f => spec_deleted f = true) [Sample.fileE])),
   [Sample.fileE]).
Proof. vm_compute. intros H. discriminate H. Qed.

(** A file of one of the node's components is reported as detached: the
    validator compares the file's target with the node alone. *)
Lemma validateFileList_descendant_file :
  spec_detached Sample.nodeN Sample.fileD = false /\
  validateFileList id (Some Sample.nodeN) (Some [Sample.fileD]) =
  (ValidationErrors [detachedMessage ["d.txt"] "project"], [Sample.fileD]).
Proof. split; reflexivity. Qed.

(** C9.  Without a node, or without a value, the validator answers [true]
    and asks for no reload. *)
Theorem validateFileList_nothing_to_check (reload : File -> File)
    (node : option NodeModel) (newValue : option (list File)) :
  node = None \/ newValue = None ->
  validateFileList reload node newValue = (ValidTrue, []).
Proof.
  intros [-> | ->]; unfold validateFileList.
  - by destruct newValue.
  - reflexivity.
Qed.

Lemma validateFileList_nothing_to_check_witness :
  validateFileList Sample.server None (Some [Sample.fileB; Sample.fileC]) = (ValidTrue, [])
  /\ validateFileList Sample.server (Some Sample.nodeN) None = (ValidTrue, []).
Proof.
  split.
  - apply validateFileList_nothing_to_check. left. reflexivity.
  - apply validateFileList_nothing_to_check. right. reflexivity.
Defined.

(** ** Computed properties of the manager *)

Lemma index_is_Some {A : Type} (arr : list A) (i : Z) :
  is_Some (Js.index arr i) <-> 0 <= i < Js.length arr.
Proof.
  unfold Js.index, Js.length.
  destruct (Z.ltb_spec i 0) as [Hneg | Hpos].
  - split; [intros [x Hx]; discriminate | lia].
  - rewrite lookup_lt_is_Some. lia.
Qed.

Lemma index_None {A : Type} (arr : list A) (i : Z) :
  Js.index arr i = None <-> ~ (0 <= i < Js.length arr).
Proof.
  rewrite <- index_is_Some, eq_None_not_Some. reflexivity.
Qed.

(** C4.  [currentPageManager] is [undefined] exactly when [currentPage] is
    outside [1 .. pageManagers.length]; inside that range it is the page
    manager at index [currentPage - 1]. *)
Theorem currentPageManager_in_range (c : Component) :
  (currentPageManager c = None <->
   ~ (1 <= currentPage c <= Js.length (pageManagers c)))
  /\ (1 <= currentPage c <= Js.length (pageManagers c) ->
      is_Some (currentPageManager c)
      /\ currentPageManager c = pageManagers c !! Z.to_nat (currentPage c - 1)).
Proof.
  unfold currentPageManager.
  destruct (Z.geb_spec (Js.length (pageManagers c)) (currentPage c)) as [Hle | Hgt].
  - split.
    + rewrite index_None. lia.
    + intros Hrange. split.
      * apply index_is_Some. lia.
      * unfold Js.index. destruct (Z.ltb_spec (currentPage c - 1) 0); [lia | done].
  - split; [split; [lia | done] | lia].
Qed.

Lemma currentPageManager_in_range_witness :
  1 <= currentPage (Sample.ready 2) <= Js.length (pageManagers (Sample.ready 2))
  /\ currentPageManager (Sample.ready 2) = Some Sample.page2.
Proof.
  assert (Hrange : 1 <= currentPage (Sample.ready 2)
                     <= Js.length (pageManagers (Sample.ready 2))).
  { vm_compute. split; discriminate. }
  split; [exact Hrange|].
  exact (proj2 (proj2 (currentPageManager_in_range (Sample.ready 2)) Hrange)).
Defined.

(** C6.  [isValid] holds exactly when every page manager's [pageIsValid] is
    [true]; it does not depend on [currentPage]; and when one page's
    [pageIsValid] changes, [isValid] becomes the new flag together with the
    validity of the other pages. *)
Theorem isValid_every_page (c : Component) :
  (isValid c = true <->
   Forall (fun pm => pageIsValid pm = Some true) (pageManagers c))
  /\ (forall page : Z, isValid (set_currentPage page c) = isValid c)
  /\ (forall (before after : list PageManager) (pm : PageManager) (v : option bool),
        isValid (set_pageManagers
                   (before ++ {| schemaBlockGroups := schemaBlockGroups pm;
                                 changeSet := changeSet pm;
                                 pageHeadingText := pageHeadingText pm;
                                 pageIsValid := v |} :: after) c)
        = Boolean v && isValid (set_pageManagers (before ++ after) c)).
Proof.
  unfold isValid. split; [|split].
  - rewrite forallb_forall, List.Forall_forall. split.
    + intros H pm Hin. specialize (H pm Hin).
      destruct (pageIsValid pm) as [[|]|]; simpl in H; congruence.
    + intros H pm Hin. rewrite (H pm Hin). reflexivity.
  - reflexivity.
  - intros before after pm v. simpl.
    rewrite !forallb_app. simpl.
    destruct (Boolean v), (forallb _ before); reflexivity.
Qed.

Lemma isValid_every_page_witness :
  isValid (Sample.ready 1) = false
  /\ isValid (set_pageManagers
                ([Sample.page1] ++
                 [{| schemaBlockGroups := schemaBlockGroups Sample.page2;
                     changeSet := changeSet Sample.page2;
                     pageHeadingText := pageHeadingText Sample.page2;
                     pageIsValid := Some true |}])
                (Sample.ready 1)) = true.
Proof.
  split; [reflexivity|].
  exact (proj2 (proj2 (isValid_every_page (Sample.ready 1)))
               [Sample.page1] [] Sample.page2 (Some true)).
Defined.

(** C10.  With no page managers [isValid] is [true]; that is the case for a
    new component, and still the case when initialization stops at a failed
    fetch, since [pageManagers] is assigned by its last statement only. *)
Theorem isValid_without_pages :
  (forall c : Component, pageManagers c = [] -> isValid c = true)
  /\ (forall (model : option (Settled Draft.t)) (page : Z),
        isValid (newComponent model page) = true)
  /\ (forall getPages newPageManager (w : World) (e : Js.error),
        pageManagers (this w) = [] ->
        fst (initializePageManagers getPages newPageManager w) = Thrown e ->
        let w' := snd (initializePageManagers getPages newPageManager w) in
        pageManagers (this w') = [] /\ isValid (this w') = true).
Proof.
  assert (Hempty : forall c, pageManagers c = [] -> isValid c = true).
  { intros c H. unfold isValid. rewrite H. reflexivity. }
  split; [exact Hempty|]. split; [intros; reflexivity|].
  intros getPages newPageManager w e Hpm Hthrown.
  cut (pageManagers (this (snd (initializePageManagers getPages newPageManager w))) = []).
  { intros H. split; [exact H | apply Hempty, H]. }
  revert Hthrown.
  unfold initializePageManagers, mbind, Task_bind, getThis, getHeap, modifyThis,
    assert, throw, mret, Task_ret.
  destruct w as [h c calls saves]. simpl in *.
  destruct (modelTaskInstance c) as [[draft | e1] |]; simpl; try done.
  destruct (Draft.registrationSchema draft) as [schema | e2]; simpl; try done.
  destruct (schemaBlocks schema) as [blocks | e3]; simpl; try done.
  destruct (getPages blocks) as [|p ps]; simpl; discriminate.
Qed.


Lemma isValid_without_pages_witness :
  isValid (newComponent (Some (Fulfilled Sample.draft)) 1) = true
  /\ (let w := Sample.fresh_world (Some (Rejected (Rejection "404"))) 1 in
      let w' := snd (initializePageManagers Sample.getPages Sample.newPageManager w) in
      pageManagers (this w') = [] /\ isValid (this w') = true).
Proof.
  split.
  - exact (proj1 isValid_without_pages
             (newComponent (Some (Fulfilled Sample.draft)) 1) eq_refl).
  - exact (proj2 (proj2 isValid_without_pages)
             Sample.getPages Sample.newPageManager
             (Sample.fresh_world (Some (Rejected (Rejection "404"))) 1)
             (Rejection "404") eq_refl eq_refl).
Defined.

(** The two page params, case by case. *)
Lemma nextPageParam_cases (getPageParam : Z -> option string -> string) (c : Component) :
  nextPageParam getPageParam c =
  if decide (pageManagers c = [] \/ lastPage c = Some (currentPage c)) then Normal ""
  else match Js.index (pageManagers c) (currentPage c) with
       | Some pm => Normal (getPageParam (currentPage c + 1) (pageHeadingText pm))
       | None => Thrown TypeError
       end.
Proof.
  unfold nextPageParam, Js.length.
  destruct (decide _) as [[Hnil | Hlast] | Hnot].
  - rewrite Hnil. reflexivity.
  - rewrite (bool_decide_eq_true_2 _ Hlast), andb_false_r. reflexivity.
  - destruct (pageManagers c) as [|pm pms].
    + exfalso. apply Hnot. left. reflexivity.
    + rewrite bool_decide_eq_false_2 by tauto. reflexivity.
Qed.

Lemma prevPageParam_cases (getPageParam : Z -> option string -> string) (c : Component) :
  prevPageParam getPageParam c =
  if decide (pageManagers c = [] \/ currentPage c <= 1) then Normal ""
  else match Js.index (pageManagers c) (currentPage c - 2) with
       | Some pm => Normal (getPageParam (currentPage c - 1) (pageHeadingText pm))
       | None => Thrown TypeError
       end.
Proof.
  unfold prevPageParam, Js.length.
  destruct (decide _) as [[Hnil | Hle] | Hnot].
  - rewrite Hnil. reflexivity.
  - destruct (Z.gtb_spec (currentPage c) 1); [lia|].
    rewrite andb_false_r. reflexivity.
  - destruct (pageManagers c) as [|pm pms].
    + exfalso. apply Hnot. left. reflexivity.
    + destruct (Z.gtb_spec (currentPage c) 1); [reflexivity | tauto].
Qed.

Lemma page_number_index (c : Component) (n : Z) :
  page_number c n = Js.index (pageManagers c) (n - 1).
Proof.
  unfold page_number, Js.index.
  destruct (Z.ltb_spec n 1), (Z.ltb_spec (n - 1) 0); try lia; reflexivity.
Qed.

(** C5 (as amended).  Both params are the empty string while there are no
    page managers.  [nextPageParam] is the empty string when [currentPage] is
    [lastPage], and otherwise, when page [currentPage + 1] exists, it is
    [getPageParam] of that page's number and heading text.  [prevPageParam] is
    the empty string when [currentPage <= 1], and otherwise, when page
    [currentPage - 1] exists, it is [getPageParam] of that page's number and
    heading text. *)
Theorem pageParams_adjacent_pages (getPageParam : Z -> option string -> string)
    (c : Component) :
  (pageManagers c = [] ->
     nextPageParam getPageParam c = Normal ""
     /\ prevPageParam getPageParam c = Normal "")
  /\ (lastPage c = Some (currentPage c) -> nextPageParam getPageParam c = Normal "")
  /\ (currentPage c <= 1 -> prevPageParam getPageParam c = Normal "")
  /\ (forall pm : PageManager,
        lastPage c ≠ Some (currentPage c) ->
        page_number c (currentPage c + 1) = Some pm ->
        nextPageParam getPageParam c =
          Normal (getPageParam (currentPage c + 1) (pageHeadingText pm)))
  /\ (forall pm : PageManager,
        1 < currentPage c ->
        page_number c (currentPage c - 1) = Some pm ->
        prevPageParam getPageParam c =
          Normal (getPageParam (currentPage c - 1) (pageHeadingText pm))).
Proof.
  rewrite nextPageParam_cases, prevPageParam_cases.
  split; [|split; [|split; [|split]]].
  - intros H. rewrite !decide_True by (left; exact H). split; reflexivity.
  - intros H. rewrite decide_True by (right; exact H). reflexivity.
  - intros H. rewrite decide_True by (right; exact H). reflexivity.
  - intros pm Hlast Hpage. rewrite page_number_index in Hpage.
    replace (currentPage c + 1 - 1) with (currentPage c) in Hpage by lia.
    rewrite decide_False, Hpage; [reflexivity|].
    intros [Hnil | ?]; [|contradiction].
    rewrite Hnil in Hpage. unfold Js.index in Hpage.
    destruct (currentPage c <? 0); discriminate.
  - intros pm Hgt Hpage. rewrite page_number_index in Hpage.
    replace (currentPage c - 1 - 1) with (currentPage c - 2) in Hpage by lia.
    rewrite decide_False, Hpage; [reflexivity|].
    intros [Hnil | ?]; [|lia].
    rewrite Hnil in Hpage. unfold Js.index in Hpage.
    destruct (currentPage c - 2 <? 0); discriminate.
Qed.

Lemma pageParams_adjacent_pages_witness :
  nextPageParam Sample.getPageParam (Sample.ready 1) = Normal "page-Second page"
  /\ prevPageParam Sample.getPageParam (Sample.ready 1) = Normal ""
  /\ nextPageParam Sample.getPageParam (Sample.ready 2) = Normal ""
  /\ prevPageParam Sample.getPageParam (Sample.ready 2) = Normal "page-First page".
Proof.
  pose proof (pageParams_adjacent_pages Sample.getPageParam (Sample.ready 1))
    as (_ & _ & Hprev1 & Hnext1 & _).
  pose proof (pageParams_adjacent_pages Sample.getPageParam (Sample.ready 2))
    as (_ & Hnext2 & _ & _ & Hprev2).
  split; [|split; [|split]].
  - apply (Hnext1 Sample.page2); [discriminate | reflexivity].
  - apply Hprev1. discriminate.
  - apply Hnext2. reflexivity.
  - apply (Hprev2 Sample.page1); reflexivity.
Defined.

(** C5 as stated fails.  Before initialization has assigned any page manager
    [currentPage] differs from [lastPage], there is no next page, and
    [nextPageParam] is the empty string, which is not the param of any
    heading text. *)
Lemma nextPageParam_without_pages :
  let c := newComponent (Some (Fulfilled Sample.draft)) 1 in
  lastPage c ≠ Some (currentPage c)
  /\ page_number c (currentPage c + 1) = None
  /\ nextPageParam Sample.getPageParam c = Normal ""
  /\ forall headingText : option string,
       nextPageParam Sample.getPageParam c ≠
       Normal (Sample.getPageParam (currentPage c + 1) headingText).
Proof.
  split; [discriminate|]. split; [reflexivity|]. split; [reflexivity|].
  intros headingText H. vm_compute in H. discriminate H.
Qed.

(** Where the adjacent page does not exist although the guards pass, reading
    its heading throws. *)
Lemma nextPageParam_past_last_page :
  nextPageParam Sample.getPageParam (Sample.ready 5) = Thrown TypeError.
Proof. reflexivity. Qed.

(** ** Tasks *)

Lemma bind_Normal {A B : Type} (m : Task A) (k : A -> Task B) (w w' : World) (a : A) :
  m w = (Normal a, w') -> (m ≫= k) w = k a w'.
Proof. intros H. unfold mbind, Task_bind. rewrite H. reflexivity. Qed.

Lemma bind_Thrown {A B : Type} (m : Task A) (k : A -> Task B) (w w' : World) (e : Js.error) :
  m w = (Thrown e, w') -> (m ≫= k) w = (Thrown e, w').
Proof. intros H. unfold mbind, Task_bind. rewrite H. reflexivity. Qed.

(** C7.  When [save()] rejects during [submitDraftRegistration], the task
    throws the rejection to its caller and leaves the component and the
    response objects as they were, so [isValid] and [currentPage] keep their
    values; the task has not completed, and a later submit whose [save()]
    is fulfilled completes. *)
Theorem submitDraftRegistration_rejected (w : World) (e : Js.error) (d : Draft.t) :
  draftRegistration (this w) = Some d ->
  let r := submitDraftRegistration (Rejected e) w in
  fst r = Thrown e
  /\ this (snd r) = this w
  /\ heap (snd r) = heap w
  /\ isValid (this (snd r)) = isValid (this w)
  /\ currentPage (this (snd r)) = currentPage (this w)
  /\ fst (submitDraftRegistration (Fulfilled tt) (snd r)) = Normal tt.
Proof.
  intros Hdraft. unfold submitDraftRegistration, draft_save.
  rewrite Hdraft. simpl. rewrite Hdraft. simpl. repeat split; reflexivity.
Qed.

Lemma submitDraftRegistration_rejected_witness :
  let r := submitDraftRegistration (Rejected (Rejection "503")) (Sample.ready_world 2) in
  fst r = Thrown (Rejection "503")
  /\ isValid (this (snd r)) = false
  /\ currentPage (this (snd r)) = 2.
Proof.
  pose proof (submitDraftRegistration_rejected (Sample.ready_world 2)
                (Rejection "503") Sample.draft eq_refl) as (Hthrown & _ & _ & Hvalid & Hpage & _).
  split; [exact Hthrown|]. split; [exact Hvalid | exact Hpage].
Defined.

(** C8.  When the draft, its schema and the schema's blocks are all
    fetched, [initializePageManagers] completes, builds one page manager per
    page, sets [lastPage] to the number of pages, and calls [updateRoute] once,
    with the first page manager's heading text, if there is a page, and not at
    all if there is none. *)
Theorem initializePageManagers_updateRoute
    (getPages : list SchemaBlock -> list (list SchemaBlock))
    (newPageManager : list SchemaBlock -> PageResponse -> PageManager)
    (w : World) (draft : Draft.t) (schema : RegistrationSchema)
    (blocks : list SchemaBlock) :
  modelTaskInstance (this w) = Some (Fulfilled draft) ->
  Draft.registrationSchema draft = Fulfilled schema ->
  schemaBlocks schema = Fulfilled blocks ->
  let r := initializePageManagers getPages newPageManager w in
  let managers :=
    map (fun page =>
           newPageManager page
             (default ∅ (heap w !! Draft.registrationResponses draft)))
        (getPages blocks) in
  fst r = Normal tt
  /\ pageManagers (this (snd r)) = managers
  /\ lastPage (this (snd r)) = Some (Js.length (getPages blocks))
  /\ (managers = [] -> updateRouteCalls (snd r) = updateRouteCalls w)
  /\ (forall first rest, managers = first :: rest ->
        updateRouteCalls (snd r) =
          (updateRouteCalls w ++ [pageHeadingText first])%list).
Proof.
  intros Hmodel Hschema Hblocks.
  unfold initializePageManagers, mbind, Task_bind, getThis, getHeap, modifyThis,
    assert, throw, mret, Task_ret.
  destruct w as [h c calls saves]. simpl in *.
  rewrite Hmodel. simpl. rewrite Hschema. simpl. rewrite Hblocks. simpl.
  destruct (getPages blocks) as [|p ps]; simpl.
  - repeat split; try reflexivity. intros first rest H. discriminate H.
  - repeat split; try reflexivity.
    + intros H. discriminate H.
    + intros first rest H. injection H as <- _. reflexivity.
Qed.

Lemma initializePageManagers_updateRoute_witness :
  let w := Sample.fresh_world (Some (Fulfilled (Sample.draft_of Sample.two_pages))) 1 in
  let r := initializePageManagers Sample.getPages Sample.newPageManager w in
  fst r = Normal tt
  /\ lastPage (this (snd r)) = Some 2
  /\ updateRouteCalls (snd r) = [Some "Study"].
Proof.
  pose proof (initializePageManagers_updateRoute Sample.getPages Sample.newPageManager
                (Sample.fresh_world (Some (Fulfilled (Sample.draft_of Sample.two_pages))) 1)
                (Sample.draft_of Sample.two_pages)
                {| schemaBlocks := Fulfilled Sample.two_pages |}
                Sample.two_pages eq_refl eq_refl eq_refl)
    as (Hdone & _ & Hlast & _ & Hcalls).
  split; [exact Hdone|]. split; [exact Hlast|].
  exact (Hcalls _ _ eq_refl).
Defined.

(** With no page the router is not notified. *)
Lemma initializePageManagers_no_page :
  let w := Sample.fresh_world (Some (Fulfilled (Sample.draft_of []))) 1 in
  let r := initializePageManagers Sample.getPages Sample.newPageManager w in
  fst r = Normal tt /\ lastPage (this (snd r)) = Some 0 /\ updateRouteCalls (snd r) = [].
Proof. repeat split; reflexivity. Qed.

(** A failed fetch is thrown to whoever performed the task. *)
Lemma initializePageManagers_rejected (getPages : list SchemaBlock -> list (list SchemaBlock))
    (newPageManager : list SchemaBlock -> PageResponse -> PageManager)
    (w : World) (e : Js.error) :
  modelTaskInstance (this w) = Some (Rejected e) ->
  initializePageManagers getPages newPageManager w = (Thrown e, w).
Proof.
  intros Hmodel.
  unfold initializePageManagers, mbind, Task_bind, getThis, assert, throw, mret, Task_ret.
  rewrite Hmodel. reflexivity.
Qed.

(** *** The merge step of [onInput] *)

Lemma read_alter_other (h : gmap ref PageResponse) (target r : ref)
    (key k : string) (v : Js.value) :
  k ≠ key -> read (alter (fun obj => <[key := v]> obj) target h) r k = read h r k.
Proof.
  intros Hk. unfold read. rewrite lookup_alter. case_decide as Hr.
  - subst r. destruct (h !! target) as [obj|]; simpl; [|reflexivity].
    apply lookup_insert_ne. congruence.
  - reflexivity.
Qed.

Lemma onInput_merge_run (pm : PageManager) (group : SchemaBlockGroup) (w : World) :
  onInput_merge pm group w =
  match changeSet pm with
  | Some changeset =>
      (Normal tt,
       {| heap :=
            alter (fun obj =>
                     <[onInput_literal_key :=
                         changeset_get changeset (registrationResponseKey group)]> obj)
                  (registrationResponses (this w)) (heap w);
          this := this w;
          updateRouteCalls := updateRouteCalls w;
          saveCalls := saveCalls w |})
  | None => (Thrown TypeError, w)
  end.
Proof.
  unfold onInput_merge, mbind, Task_bind, getThis, Object_assign, throw, mret, Task_ret.
  destruct (changeSet pm); reflexivity.
Qed.

(** Whatever the groups, the loop changes nothing but the property
    [registrationResponseKey] of response objects, and it runs to its end when
    the page manager has a change-set. *)
Lemma forEach_merge_frame (pm : PageManager) (groups : list SchemaBlockGroup) (w : World) :
  let r := forEach groups (onInput_merge pm) w in
  this (snd r) = this w
  /\ updateRouteCalls (snd r) = updateRouteCalls w
  /\ saveCalls (snd r) = saveCalls w
  /\ (forall r' k, k ≠ onInput_literal_key -> read (heap (snd r)) r' k = read (heap w) r' k)
  /\ (is_Some (changeSet pm) -> fst r = Normal tt).
Proof.
  revert w. induction groups as [|group rest IH]; intros w.
  - repeat split; reflexivity.
  - cbn [forEach]. unfold mbind, Task_bind. rewrite onInput_merge_run.
    destruct (changeSet pm) as [changeset|] eqn:Hcs.
    + match goal with |- context [forEach rest _ ?w1] =>
        destruct (IH w1) as (Hthis & Hcalls & Hsaves & Hread & Hdone)
      end.
      cbn [this updateRouteCalls saveCalls heap] in *.
      split; [exact Hthis|]. split; [exact Hcalls|]. split; [exact Hsaves|].
      split; [|exact Hdone].
      intros r' k Hk. rewrite (Hread r' k Hk). apply read_alter_other, Hk.
    + cbn. repeat split; try reflexivity. intros [? Habs]. discriminate Habs.
Qed.

(** What a resumed [onInput] does when it can save: the loop has changed at
    most the property [registrationResponseKey], the draft is handed the
    component's response object, and that object is sent to the data layer. *)
Lemma onInput_run (saveOutcome : Settled unit) (w : World)
    (pm : PageManager) (groups : list SchemaBlockGroup) (changeset : PageResponse)
    (draft : Draft.t) :
  currentPageManager (this w) = Some pm ->
  schemaBlockGroups pm = Some groups ->
  changeSet pm = Some changeset ->
  draftRegistration (this w) = Some draft ->
  exists h' : gmap ref PageResponse,
    onInput saveOutcome w =
      (match saveOutcome with
       | Fulfilled _ => Normal tt
       | Rejected e => Thrown e
       end,
       {| heap := h';
          this :=
            set_draftRegistration
              {| Draft.registrationSchema := Draft.registrationSchema draft;
                 Draft.registrationResponses := registrationResponses (this w) |}
              (this w);
          updateRouteCalls := updateRouteCalls w;
          saveCalls :=
            (saveCalls w ++ [default ∅ (h' !! registrationResponses (this w))])%list |})
    /\ (forall r k, k ≠ onInput_literal_key -> read h' r k = read (heap w) r k).
Proof.
  intros Hpm Hgroups Hcs Hdraft.
  destruct (forEach_merge_frame pm groups w) as (Hthis & Hcalls & Hsaves & Hread & Hdone).
  specialize (Hdone (ex_intro _ changeset Hcs)).
  exists (heap (snd (forEach groups (onInput_merge pm) w))).
  split; [|exact Hread].
  unfold onInput. unfold mbind at 1, Task_bind at 1, getThis at 1. cbn beta iota.
  rewrite Hpm, Hgroups.
  unfold mbind at 1, Task_bind at 1.
  destruct (forEach groups (onInput_merge pm) w) as [c1 w1]. cbn [fst snd] in *. subst c1.
  unfold mbind, Task_bind, getThis, modifyThis, draft_save. cbn beta iota.
  cbn [this heap updateRouteCalls saveCalls].
  rewrite Hthis, Hcalls, Hsaves.
  unfold draft_set_registrationResponses. rewrite Hdraft.
  cbn [set_draftRegistration draftRegistration Draft.registrationResponses].
  destruct saveOutcome as [[] | e]; reflexivity.
Qed.

(** When [onInput] can save, it does so once, and can save again. *)
Lemma onInput_canSave (saveOutcome : Settled unit) (w : World) :
  canSave (this w) ->
  canSave (this (snd (onInput saveOutcome w)))
  /\ (exists payload,
        saveCalls (snd (onInput saveOutcome w)) = (saveCalls w ++ [payload])%list)
  /\ updateRouteCalls (snd (onInput saveOutcome w)) = updateRouteCalls w
  /\ (forall r k, k ≠ onInput_literal_key ->
        read (heap (snd (onInput saveOutcome w))) r k = read (heap w) r k).
Proof.
  intros (pm & groups & changeset & draft & Hpm & Hgroups & Hcs & Hdraft).
  destruct (onInput_run saveOutcome w pm groups changeset draft Hpm Hgroups Hcs Hdraft)
    as (h' & -> & Hread).
  cbn [snd this saveCalls updateRouteCalls heap].
  split.
  { exists pm, groups, changeset. eexists.
    split; [exact Hpm|]. split; [exact Hgroups|]. split; [exact Hcs | reflexivity]. }
  split; [eexists; reflexivity|]. split; [reflexivity | exact Hread].
Qed.

(** C1, evaluated: on a page whose only group has the key [q1], answered
    [yes] in the change-set, the autosave stores the answer under the name
    [registrationResponseKey] and persists that; the entry under [q1] is not
    set.  The merge of the design document would set it. *)
Theorem onInput_merges_under_literal_key :
  let w' := snd (onInput (Fulfilled tt) Sample.single_world) in
  let responses := default ∅ (heap w' !! Sample.draft_responses) in
  saveCalls w' = [responses]
  /\ responses !! "q1" = None
  /\ responses !! "registrationResponseKey" = Some (Str "yes")
  /\ map_to_list responses = [("registrationResponseKey", Str "yes")]
  /\ spec_merge [Sample.group "q1"] (<["q1" := Str "yes"]> ∅) ∅ !! "q1" = Some (Str "yes").
Proof. vm_compute. repeat split; reflexivity. Qed.

(** In general the autosave leaves every key other than
    [registrationResponseKey] of the response object as it was, the keys of
    the page's groups included. *)
Lemma onInput_other_keys_untouched (saveOutcome : Settled unit) (w : World)
    (r : ref) (k : string) :
  canSave (this w) -> k ≠ onInput_literal_key ->
  read (heap (snd (onInput saveOutcome w))) r k = read (heap w) r k.
Proof.
  intros Hcan Hk. destruct (onInput_canSave saveOutcome w Hcan) as (_ & _ & _ & Hread).
  apply Hread, Hk.
Qed.

(** *** Input events over time *)

Lemma resume_many (saveOutcome : Settled unit) (instances : list Z) (w : World) :
  canSave (this w) ->
  canSave (this (fold_left (fun w _ => resume saveOutcome w) instances w))
  /\ persistenceCalls (fold_left (fun w _ => resume saveOutcome w) instances w)
     = (persistenceCalls w + List.length instances)%nat.
Proof.
  revert w. induction instances as [|t rest IH]; intros w Hcan; cbn [fold_left List.length].
  - split; [exact Hcan | lia].
  - destruct (onInput_canSave saveOutcome w Hcan) as (Hcan' & [payload Hsaves] & _).
    destruct (IH (resume saveOutcome w) Hcan') as [Hcan'' Hcount].
    split; [exact Hcan''|]. rewrite Hcount.
    unfold persistenceCalls, resume. rewrite Hsaves, length_app. simpl. lia.
Qed.

Lemma due_later_length (now : Z) (instances : list Z) :
  (List.length (filter (fun t => (t <= now)%Z) instances)
   + List.length (filter (fun t => ~ (t <= now)%Z) instances))%nat
  = List.length instances.
Proof.
  rewrite <- length_app.
  apply Permutation_length, filter_app_complement.
Qed.

(** With no modifier a [perform] adds an instance and cancels none: calls
    made plus instances still suspended grows by one at each input. *)
Lemma perform_unmodified (saveOutcome : Settled unit) (s : Scheduler) (now : Z) :
  canSave (this (world s)) ->
  let s' := perform Unmodified saveOutcome s now in
  canSave (this (world s'))
  /\ (persistenceCalls (world s') + List.length (sleeping s'))%nat
     = S (persistenceCalls (world s) + List.length (sleeping s)).
Proof.
  intros Hcan. unfold perform, advance. cbn [world sleeping].
  destruct (resume_many saveOutcome (filter (fun t => t <= now) (sleeping s)) (world s) Hcan)
    as [Hcan' Hcount].
  split; [exact Hcan'|].
  rewrite Hcount, length_app. cbn [List.length].
  pose proof (due_later_length now (sleeping s)). lia.
Qed.

(** As the task is declared, every input event leads to a persistence call
    of its own, whatever the times of the events. *)
Lemma inputs_unmodified (saveOutcome : Settled unit) (times : list Z) (w : World) :
  canSave (this w) ->
  persistenceCalls (inputs Unmodified saveOutcome times w)
  = (persistenceCalls w + List.length times)%nat.
Proof.
  intros Hcan. unfold inputs.
  assert (Hfold : forall s, canSave (this (world s)) ->
            let s' := fold_left (perform Unmodified saveOutcome) times s in
            canSave (this (world s'))
            /\ (persistenceCalls (world s') + List.length (sleeping s'))%nat
               = (persistenceCalls (world s) + List.length (sleeping s)
                  + List.length times)%nat).
  { induction times as [|t rest IH]; intros s Hs; cbn [fold_left List.length].
    - split; [exact Hs | lia].
    - destruct (perform_unmodified saveOutcome s t Hs) as [Hs' Hstep].
      destruct (IH (perform Unmodified saveOutcome s t) Hs') as [Hs'' Hrest].
      split; [exact Hs''|]. lia. }
  destruct (Hfold {| sleeping := []; world := w |} Hcan) as [Hcan' Hcount].
  cbn [world sleeping List.length] in Hcount.
  unfold settle. cbn [world].
  destruct (resume_many saveOutcome
              (sleeping (fold_left (perform Unmodified saveOutcome) times
                                   {| sleeping := []; world := w |}))
              _ Hcan') as [_ Hsettle].
  rewrite Hsettle. lia.
Qed.

(** Had the task been restartable, a burst within the window would have led
    to one persistence call. *)
Lemma inputs_restartable_burst (saveOutcome : Settled unit) (t : Z) (times : list Z)
    (w : World) :
  canSave (this w) ->
  within_window (t :: times) ->
  persistenceCalls (inputs Restartable saveOutcome (t :: times) w)
  = S (persistenceCalls w).
Proof.
  intros Hcan Hwindow. unfold inputs. cbn [fold_left].
  assert (Hfirst : perform Restartable saveOutcome {| sleeping := []; world := w |} t
                   = {| sleeping := [t + onInput_timeout]; world := w |}) by reflexivity.
  rewrite Hfirst. clear Hfirst.
  assert (Hfold : exists t', fold_left (perform Restartable saveOutcome) times
                      {| sleeping := [t + onInput_timeout]; world := w |}
                    = {| sleeping := [t' + onInput_timeout]; world := w |}).
  { revert t Hwindow. induction times as [|t2 rest IH]; intros t Hwindow.
    - exists t. reflexivity.
    - destruct Hwindow as [[Hle Hlt] Hrest]. cbn [fold_left].
      assert (Hstep : perform Restartable saveOutcome
                        {| sleeping := [t + onInput_timeout]; world := w |} t2
                      = {| sleeping := [t2 + onInput_timeout]; world := w |}).
      { unfold perform, advance. cbn [sleeping world].
        rewrite filter_cons_False by lia. rewrite filter_nil. reflexivity. }
      rewrite Hstep. apply IH, Hrest. }
  destruct Hfold as [t' ->]. unfold settle. cbn [sleeping world fold_left].
  destruct (onInput_canSave saveOutcome w Hcan) as (_ & [payload Hsaves] & _).
  unfold persistenceCalls, resume. rewrite Hsaves, length_app. simpl. lia.
Qed.

(** C2, evaluated: two input events 100 ms apart, within one debounce
    window, with a current page manager present, lead to two persistence calls,
    since the task has no modifier that would cancel the first instance; the
    same events on a restartable task lead to one. *)
Theorem onInput_burst_saves_twice :
  within_window [0; 100]
  /\ persistenceCalls (inputs onInput_modifier (Fulfilled tt) [0; 100] Sample.single_world)
     = 2%nat
  /\ persistenceCalls (inputs Restartable (Fulfilled tt) [0; 100] Sample.single_world)
     = 1%nat.
Proof.
  split; [|split].
  - vm_compute. repeat split; discriminate.
  - vm_compute. reflexivity.
  - vm_compute. reflexivity.
Qed.

(** Events spaced beyond the window lead to one persistence call each. *)
Lemma inputs_beyond_window (saveOutcome : Settled unit) (times : list Z) (w : World) :
  canSave (this w) ->
  beyond_window times ->
  persistenceCalls (inputs onInput_modifier saveOutcome times w)
  = (persistenceCalls w + List.length times)%nat.
Proof. intros Hcan _. apply inputs_unmodified, Hcan. Qed.

(** * Further properties of the code *)

(** ** The file-list validator, continued *)

Lemma filter_nil_Forall {A : Type} (P : A -> Prop) `{!forall x, Decision (P x)} (l : list A) :
  filter P l = [] <-> Forall (fun x => ~ P x) l.
Proof.
  induction l as [|x l IH].
  - split; [constructor | reflexivity].
  - destruct (decide (P x)) as [HP | HP].
    + rewrite filter_cons_True by exact HP. split; [discriminate|].
      intros Hall. inversion Hall; contradiction.
    + rewrite filter_cons_False by exact HP. rewrite IH. split.
      * intros Hall. constructor; assumption.
      * intros Hall. inversion Hall; assumption.
Qed.

Lemma map_name_nil (l : list File) : map name l = [] <-> l = [].
Proof. destruct l; split; intros H; try reflexivity; discriminate H. Qed.

Lemma validationResult_true (poc : string) (detachedNames deletedNames : list string) :
  validationResult poc detachedNames deletedNames = ValidTrue
  <-> detachedNames = [] /\ deletedNames = [].
Proof.
  destruct detachedNames, deletedNames; simpl; split; try done; intros [? ?]; done.
Qed.

(** X1.  With a node and a value, the validator answers [true] exactly when
    every file reloaded without error and has the node as its target; the
    empty list is such a value. *)
Theorem validateFileList_true_iff (reload : File -> File) (node : NodeModel)
    (files : list File) :
  fst (validateFileList reload (Some node) (Some files)) = ValidTrue
  <-> Forall (fun f => isError f = false /\ target f = Some (node_id node))
             (map reload files).
Proof.
  rewrite validateFileList_filter. cbn [fst].
  rewrite validationResult_true, !map_name_nil, !filter_nil_Forall.
  rewrite !List.Forall_forall. split.
  - intros [Hdet Hdel] f Hin.
    destruct (isError f) eqn:Herr.
    + exfalso. apply (Hdel f Hin). exact Herr.
    + split; [reflexivity|].
      destruct (decide (target f = Some (node_id node))) as [Heq | Hne]; [exact Heq|].
      exfalso. apply (Hdet f Hin). split; [exact Herr | exact Hne].
  - intros H. split; intros f Hin; destruct (H f Hin) as [Herr Htarget].
    + intros [_ Hne]. contradiction.
    + rewrite Herr. discriminate.
Qed.

(** X2.  The detached message, if any, comes first and lists, in the order
    of the value, the names of the files that reloaded without error and whose
    target is not the node; the deleted message lists, in the same order, the
    names of the files whose reload failed; a category without files has no
    message. *)
Theorem validateFileList_messages_in_order (reload : File -> File) (node : NodeModel)
    (files : list File) :
  let detached :=
    map name (filter (fun f => isError f = false /\ target f ≠ Some (node_id node))
                     (map reload files)) in
  let deleted := map name (filter (fun f => isError f = true) (map reload files)) in
  let poc := projectOrComponent node in
  fst (validateFileList reload (Some node) (Some files)) =
  match detached, deleted with
  | [], [] => ValidTrue
  | _, _ =>
      ValidationErrors
        ((if isEmpty detached then [] else [detachedMessage detached poc]) ++
         (if isEmpty deleted then [] else [deletedMessage deleted poc]))%list
  end.
Proof.
  intros detached deleted poc. rewrite validateFileList_filter. cbn [fst].
  fold detached deleted poc.
  destruct detached, deleted; reflexivity.
Qed.

(** X3.  Whatever its arguments, the validator never answers with an empty
    array: it answers [true], or with one or two messages. *)
Theorem validateFileList_message_count (reload : File -> File)
    (node : option NodeModel) (newValue : option (list File)) (messages : list string) :
  fst (validateFileList reload node newValue) = ValidationErrors messages ->
  (1 <= List.length messages <= 2)%nat.
Proof.
  destruct newValue as [files|], node as [node|]; try discriminate.
  rewrite validateFileList_filter. cbn [fst]. unfold validationResult.
  destruct (map name _), (map name (filter _ (map reload files)));
    intros H; inversion H; simpl; lia.
Qed.

Lemma validateFileList_message_count_witness :
  (1 <= List.length [detachedMessage ["b.txt"] "project"; deletedMessage ["c.txt"] "project"]
     <= 2)%nat.
Proof.
  apply (validateFileList_message_count Sample.server (Some Sample.nodeN)
           (Some [Sample.fileA; Sample.fileB; Sample.fileC])).
  reflexivity.
Defined.

(** X4.  A file that reloads without error and has the node as its target
    contributes nothing: the answer is the same without it. *)
Theorem validateFileList_attached_file_ignored (reload : File -> File) (node : NodeModel)
    (before after : list File) (file : File) :
  isError (reload file) = false ->
  target (reload file) = Some (node_id node) ->
  fst (validateFileList reload (Some node) (Some (before ++ file :: after)%list)) =
  fst (validateFileList reload (Some node) (Some (before ++ after)%list)).
Proof.
  intros Herr Htarget. rewrite !validateFileList_filter. cbn [fst].
  rewrite !map_app, !filter_app. cbn [map].
  rewrite (filter_cons_False _ (reload file)) by (intros [_ Hne]; contradiction).
  rewrite (filter_cons_False _ (reload file)) by (rewrite Herr; discriminate).
  reflexivity.
Qed.

Lemma validateFileList_attached_file_ignored_witness :
  fst (validateFileList Sample.server (Some Sample.nodeN)
         (Some ([Sample.fileB] ++ Sample.fileA :: [Sample.fileC])%list)) =
  fst (validateFileList Sample.server (Some Sample.nodeN)
         (Some ([Sample.fileB] ++ [Sample.fileC])%list)).
Proof.
  apply validateFileList_attached_file_ignored; reflexivity.
Defined.

(** ** The autosave task, continued *)

Lemma draft_save_run (saveOutcome : Settled unit) (w : World) :
  draft_save saveOutcome w =
  match draftRegistration (this w) with
  | None => (Thrown TypeError, w)
  | Some draft =>
      (settled saveOutcome,
       {| heap := heap w; this := this w;
          updateRouteCalls := updateRouteCalls w;
          saveCalls :=
            (saveCalls w ++ [default ∅ (heap w !! Draft.registrationResponses draft)])%list |})
  end.
Proof.
  unfold draft_save. destruct (draftRegistration (this w)); [|reflexivity].
  destruct saveOutcome as [[]|e]; reflexivity.
Qed.

Lemma onInput_unfold (saveOutcome : Settled unit) (w : World) :
  onInput saveOutcome w =
  match currentPageManager (this w) with
  | Some pm =>
      match schemaBlockGroups pm with
      | Some groups =>
          match forEach groups (onInput_merge pm) w with
          | (Normal _, w1) => draft_save saveOutcome (handDraft w1)
          | (Thrown e, w1) => (Thrown e, w1)
          end
      | None => (Normal tt, w)
      end
  | None => (Normal tt, w)
  end.
Proof.
  unfold onInput. unfold mbind at 1, Task_bind at 1, getThis at 1. cbn beta iota.
  destruct (currentPageManager (this w)) as [pm|]; [|reflexivity].
  destruct (schemaBlockGroups pm) as [groups|]; [|reflexivity].
  unfold mbind at 1, Task_bind at 1.
  destruct (forEach groups (onInput_merge pm) w) as [[[]|e] w1]; reflexivity.
Qed.

Lemma currentPageManager_outside (c : Component) :
  ~ (1 <= currentPage c <= Js.length (pageManagers c)) -> currentPageManager c = None.
Proof.
  intros Hout. unfold currentPageManager.
  destruct (Z.geb_spec (Js.length (pageManagers c)) (currentPage c)); [|reflexivity].
  apply index_None. lia.
Qed.

(** X5.  While [currentPage] is outside [1 .. pageManagers.length], a
    resumed [onInput] does nothing: it completes, makes no persistence call and
    leaves every object as it was. *)
Theorem onInput_outside_pages (saveOutcome : Settled unit) (w : World) :
  ~ (1 <= currentPage (this w) <= Js.length (pageManagers (this w))) ->
  onInput saveOutcome w = (Normal tt, w).
Proof.
  intros Hout. rewrite onInput_unfold, (currentPageManager_outside _ Hout). reflexivity.
Qed.

Lemma onInput_outside_pages_witness :
  onInput (Rejected (Rejection "503")) (Sample.ready_world 3)
  = (Normal tt, Sample.ready_world 3).
Proof.
  apply onInput_outside_pages. vm_compute. intros [_ H]. apply H. reflexivity.
Defined.



Lemma onInput_preserves (saveOutcome : Settled unit) (w : World) :
  let w' := snd (onInput saveOutcome w) in
  updateRouteCalls w' = updateRouteCalls w
  /\ currentPage (this w') = currentPage (this w)
  /\ lastPage (this w') = lastPage (this w)
  /\ pageManagers (this w') = pageManagers (this w)
  /\ registrationResponses (this w') = registrationResponses (this w)
  /\ (saveCalls w' = saveCalls w
      \/ exists payload, saveCalls w' = (saveCalls w ++ [payload])%list).
Proof.
  cbv zeta. rewrite onInput_unfold.
  destruct (currentPageManager (this w)) as [pm|];
    [|cbn [snd]; repeat split; try reflexivity; left; reflexivity].
  destruct (schemaBlockGroups pm) as [groups|];
    [|cbn [snd]; repeat split; try reflexivity; left; reflexivity].
  destruct (forEach_merge_frame pm groups w) as (Hthis & Hcalls & Hsaves & _ & _).
  destruct (forEach groups (onInput_merge pm) w) as [[[]|e1] w1]; cbn [snd] in *.
  - rewrite draft_save_run. unfold handDraft, draft_set_registrationResponses.
    cbn [this heap updateRouteCalls saveCalls]. rewrite Hthis, Hcalls, Hsaves.
    destruct (draftRegistration (this w)) as [d|] eqn:Hd; cbn; rewrite ?Hd; cbn.
    + repeat split; try reflexivity. right. eexists. reflexivity.
    + repeat split; try reflexivity. left. reflexivity.
  - rewrite Hthis, Hcalls, Hsaves. repeat split; try reflexivity. left. reflexivity.
Qed.

(** X7.  A resumed [onInput] never notifies the router and never changes
    [currentPage], [lastPage], [pageManagers] or which response object the
    component holds; it makes at most one persistence call. *)
Theorem onInput_frame (saveOutcome : Settled unit) (w : World) :
  let w' := snd (onInput saveOutcome w) in
  updateRouteCalls w' = updateRouteCalls w
  /\ currentPage (this w') = currentPage (this w)
  /\ lastPage (this w') = lastPage (this w)
  /\ pageManagers (this w') = pageManagers (this w)
  /\ registrationResponses (this w') = registrationResponses (this w)
  /\ (saveCalls w' = saveCalls w
      \/ exists payload, saveCalls w' = (saveCalls w ++ [payload])%list).
Proof. exact (onInput_preserves saveOutcome w). Qed.










(** ** Initialization, continued *)

(** [initializePageManagers] step by step. *)
Lemma initializePageManagers_run
    (getPages : list SchemaBlock -> list (list SchemaBlock))
    (newPageManager : list SchemaBlock -> PageResponse -> PageManager) (w : World) :
  initializePageManagers getPages newPageManager w =
  match modelTaskInstance (this w) with
  | None => (Thrown (AssertionFailed "TaskInstance<DraftRegistration> is required!"), w)
  | Some (Rejected e) => (Thrown e, w)
  | Some (Fulfilled draft) =>
      let stored :=
        {| heap := heap w; this := set_draftRegistration draft (this w);
           updateRouteCalls := updateRouteCalls w; saveCalls := saveCalls w |} in
      match Draft.registrationSchema draft with
      | Rejected e => (Thrown e, stored)
      | Fulfilled schema =>
          match schemaBlocks schema with
          | Rejected e => (Thrown e, stored)
          | Fulfilled blocks =>
              let managers :=
                map (fun page =>
                       newPageManager page
                         (default ∅ (heap w !! Draft.registrationResponses draft)))
                    (getPages blocks) in
              (Normal tt,
               {| heap := heap w;
                  this :=
                    set_pageManagers managers
                      (set_lastPage_responses (Js.length (getPages blocks))
                         (Draft.registrationResponses draft)
                         (set_draftRegistration draft (this w)));
                  updateRouteCalls :=
                    (updateRouteCalls w ++
                     match managers with
                     | first :: _ => [pageHeadingText first]
                     | [] => []
                     end)%list;
                  saveCalls := saveCalls w |})
          end
      end
  end.
Proof.
  unfold initializePageManagers, mbind, Task_bind, getThis, getHeap, modifyThis,
    assert, throw, mret, Task_ret.
  destruct w as [h c calls saves]. cbn [this heap updateRouteCalls saveCalls].
  destruct (modelTaskInstance c) as [[draft | e1] |]; cbn; try reflexivity.
  destruct (Draft.registrationSchema draft) as [schema | e2]; cbn; try reflexivity.
  destruct (schemaBlocks schema) as [blocks | e3]; cbn; try reflexivity.
  destruct (getPages blocks) as [|p ps]; cbn; [rewrite app_nil_r|]; reflexivity.
Qed.

(** X10.  Initialization never makes a persistence call, never changes a
    response object, and never changes [currentPage], whether it completes or
    throws. *)
Theorem initializePageManagers_frame
    (getPages : list SchemaBlock -> list (list SchemaBlock))
    (newPageManager : list SchemaBlock -> PageResponse -> PageManager) (w : World) :
  let w' := snd (initializePageManagers getPages newPageManager w) in
  saveCalls w' = saveCalls w
  /\ heap w' = heap w
  /\ currentPage (this w') = currentPage (this w)
  /\ modelTaskInstance (this w') = modelTaskInstance (this w).
Proof.
  cbv zeta. rewrite initializePageManagers_run.
  destruct (modelTaskInstance (this w)) as [[draft | e1] |] eqn:Hmodel;
    cbn; try (repeat split; congruence).
  destruct (Draft.registrationSchema draft) as [schema | e2];
    cbn; try (repeat split; congruence).
  destruct (schemaBlocks schema) as [blocks | e3]; cbn; repeat split; congruence.
Qed.



(** X12.  When initialization completes, the component has stored the
    draft and holds the draft's own response object, not a copy; [lastPage] is
    the number of page managers; and the page manager of each page was built
    from that page's blocks and the content of that object. *)
Theorem initializePageManagers_established
    (getPages : list SchemaBlock -> list (list SchemaBlock))
    (newPageManager : list SchemaBlock -> PageResponse -> PageManager) (w : World) :
  fst (initializePageManagers getPages newPageManager w) = Normal tt ->
  let w' := snd (initializePageManagers getPages newPageManager w) in
  exists draft schema blocks,
    modelTaskInstance (this w) = Some (Fulfilled draft)
    /\ Draft.registrationSchema draft = Fulfilled schema
    /\ schemaBlocks schema = Fulfilled blocks
    /\ draftRegistration (this w') = Some draft
    /\ registrationResponses (this w') = Draft.registrationResponses draft
    /\ lastPage (this w') = Some (Js.length (pageManagers (this w')))
    /\ (forall i : nat,
          pageManagers (this w') !! i =
          (fun page =>
             newPageManager page
               (default ∅ (heap w' !! registrationResponses (this w'))))
            <$> getPages blocks !! i).
Proof.
  cbv zeta. rewrite initializePageManagers_run.
  destruct (modelTaskInstance (this w)) as [[draft | e1] |] eqn:Hmodel; cbn;
    try discriminate.
  destruct (Draft.registrationSchema draft) as [schema | e2] eqn:Hschema; cbn;
    try discriminate.
  destruct (schemaBlocks schema) as [blocks | e3] eqn:Hblocks; cbn; try discriminate.
  intros _. exists draft, schema, blocks.
  split; [reflexivity|]. split; [exact Hschema|]. split; [exact Hblocks|].
  split; [reflexivity|]. split; [reflexivity|]. split.
  - unfold Js.length. rewrite length_map. reflexivity.
  - intros i. apply list_lookup_fmap.
Qed.

Lemma initializePageManagers_established_witness :
  let w := Sample.fresh_world (Some (Fulfilled (Sample.draft_of Sample.two_pages))) 1 in
  let w' := snd (initializePageManagers Sample.getPages Sample.newPageManager w) in
  registrationResponses (this w') = Sample.draft_responses
  /\ lastPage (this w') = Some (Js.length (pageManagers (this w'))).
Proof.
  destruct (initializePageManagers_established Sample.getPages Sample.newPageManager
              (Sample.fresh_world (Some (Fulfilled (Sample.draft_of Sample.two_pages))) 1)
              eq_refl)
    as (draft & schema & blocks & _ & _ & _ & _ & _ & Hlast & _).
  split; [reflexivity | exact Hlast].
Defined.

Lemma initializePageManagers_lastPage
    (getPages : list SchemaBlock -> list (list SchemaBlock))
    (newPageManager : list SchemaBlock -> PageResponse -> PageManager) (w : World) :
  fst (initializePageManagers getPages newPageManager w) = Normal tt ->
  lastPage (this (snd (initializePageManagers getPages newPageManager w))) =
  Some (Js.length (pageManagers (this (snd (initializePageManagers getPages newPageManager w))))).
Proof.
  rewrite initializePageManagers_run.
  destruct (modelTaskInstance (this w)) as [[draft | e1] |]; cbn; try discriminate.
  destruct (Draft.registrationSchema draft) as [schema | e2]; cbn; try discriminate.
  destruct (schemaBlocks schema) as [blocks | e3]; cbn; try discriminate.
  intros _. unfold Js.length. rewrite length_map. reflexivity.
Qed.

(** X13.  Once initialization has completed, whatever in-range page the
    router selects, there is a current page manager and neither page param
    throws: [nextPageParam] is the empty string on the last page and otherwise
    the param of the following page, [prevPageParam] is the empty string on
    the first page and otherwise the param of the preceding page. *)
Theorem navigation_after_initialization
    (getPages : list SchemaBlock -> list (list SchemaBlock))
    (newPageManager : list SchemaBlock -> PageResponse -> PageManager)
    (getPageParam : Z -> option string -> string) (w : World) (page : Z) :
  fst (initializePageManagers getPages newPageManager w) = Normal tt ->
  let c := set_currentPage page
             (this (snd (initializePageManagers getPages newPageManager w))) in
  1 <= page <= Js.length (pageManagers c) ->
  currentPageManager c = page_number c page
  /\ is_Some (currentPageManager c)
  /\ (page = Js.length (pageManagers c) -> nextPageParam getPageParam c = Normal "")
  /\ (page < Js.length (pageManagers c) ->
      exists pm, page_number c (page + 1) = Some pm
                 /\ nextPageParam getPageParam c =
                    Normal (getPageParam (page + 1) (pageHeadingText pm)))
  /\ (page = 1 -> prevPageParam getPageParam c = Normal "")
  /\ (1 < page ->
      exists pm, page_number c (page - 1) = Some pm
                 /\ prevPageParam getPageParam c =
                    Normal (getPageParam (page - 1) (pageHeadingText pm))).
Proof.
  intros Hdone c Hrange.
  pose proof (initializePageManagers_lastPage getPages newPageManager w Hdone) as Hlast.
  assert (Hlast' : lastPage c = Some (Js.length (pageManagers c))) by exact Hlast.
  assert (Hpage : currentPage c = page) by reflexivity.
  clearbody c. clear Hlast Hdone.
  assert (Hnonempty : pageManagers c ≠ []).
  { intros Hnil. rewrite Hnil in Hrange. unfold Js.length in Hrange. simpl in Hrange. lia. }
  rewrite nextPageParam_cases, prevPageParam_cases, !page_number_index.
  unfold currentPageManager. rewrite Hpage, Hlast'.
  split; [|split; [|split; [|split; [|split]]]].
  - destruct (Z.geb_spec (Js.length (pageManagers c)) page); [reflexivity | lia].
  - destruct (Z.geb_spec (Js.length (pageManagers c)) page); [|lia].
    apply index_is_Some. lia.
  - intros Heq. rewrite decide_True; [reflexivity|]. right. congruence.
  - intros Hlt.
    assert (Hsome : is_Some (Js.index (pageManagers c) page)) by (apply index_is_Some; lia).
    destruct Hsome as [pm Hpm]. exists pm.
    replace (page + 1 - 1) with page by lia. split; [exact Hpm|].
    rewrite decide_False, Hpm; [reflexivity|].
    intros [Hnil | Heq]; [contradiction|]. injection Heq as Heq. lia.
  - intros Heq. rewrite decide_True; [reflexivity|]. right. lia.
  - intros Hgt.
    assert (Hsome : is_Some (Js.index (pageManagers c) (page - 2)))
      by (apply index_is_Some; lia).
    destruct Hsome as [pm Hpm]. exists pm.
    replace (page - 1 - 1) with (page - 2) by lia. split; [exact Hpm|].
    rewrite decide_False, Hpm; [reflexivity|].
    intros [Hnil | Hle]; [contradiction | lia].
Qed.

Lemma navigation_after_initialization_witness :
  let w := Sample.fresh_world (Some (Fulfilled (Sample.draft_of Sample.two_pages))) 1 in
  let c := set_currentPage 2
             (this (snd (initializePageManagers Sample.getPages Sample.newPageManager w))) in
  nextPageParam Sample.getPageParam c = Normal ""
  /\ prevPageParam Sample.getPageParam c = Normal "page-Study".
Proof.
  assert (Hrange : 1 <= 2 <= 2) by lia.
  destruct (navigation_after_initialization Sample.getPages Sample.newPageManager
              Sample.getPageParam
              (Sample.fresh_world (Some (Fulfilled (Sample.draft_of Sample.two_pages))) 1)
              2 eq_refl Hrange)
    as (_ & _ & Hnext & _ & _ & Hprev).
  split; [apply Hnext; reflexivity|].
  destruct (Hprev ltac:(lia)) as (pm & Hpm & ->).
  vm_compute in Hpm. injection Hpm as <-. reflexivity.
Defined.

(** ** Input events over time, continued *)

Lemma resume_at_most_one (saveOutcome : Settled unit) (w : World) :
  (persistenceCalls w <= persistenceCalls (resume saveOutcome w)
   <= S (persistenceCalls w))%nat.
Proof.
  destruct (onInput_preserves saveOutcome w) as (_ & _ & _ & _ & _ & [Hsame | [p Hone]]);
    unfold persistenceCalls, resume.
  - rewrite Hsame. lia.
  - rewrite Hone, length_app. simpl. lia.
Qed.

Lemma resume_many_at_most (saveOutcome : Settled unit) (instances : list Z) (w : World) :
  (persistenceCalls w
   <= persistenceCalls (fold_left (fun w _ => resume saveOutcome w) instances w)
   <= persistenceCalls w + List.length instances)%nat.
Proof.
  revert w. induction instances as [|t rest IH]; intros w; cbn [fold_left List.length].
  - lia.
  - pose proof (resume_at_most_one saveOutcome w).
    pose proof (IH (resume saveOutcome w)). lia.
Qed.

Lemma perform_at_most (modifier : TaskModifier) (saveOutcome : Settled unit)
    (s : Scheduler) (now : Z) :
  let s' := perform modifier saveOutcome s now in
  (persistenceCalls (world s) <= persistenceCalls (world s'))%nat
  /\ (persistenceCalls (world s') + List.length (sleeping s')
      <= S (persistenceCalls (world s) + List.length (sleeping s)))%nat.
Proof.
  unfold perform, advance. cbn [world sleeping].
  pose proof (resume_many_at_most saveOutcome
                (filter (fun t => t <= now) (sleeping s)) (world s)) as Hdue.
  pose proof (due_later_length now (sleeping s)) as Hsplit.
  split; [lia|].
  rewrite length_app. cbn [List.length].
  destruct modifier; cbn [List.length]; lia.
Qed.

Lemma inputs_at_most (modifier : TaskModifier)
    (saveOutcome : Settled unit) (times : list Z) (w : World) :
  (persistenceCalls w
   <= persistenceCalls (inputs modifier saveOutcome times w)
   <= persistenceCalls w + List.length times)%nat.
Proof.
  unfold inputs.
  assert (Hfold : forall s,
            let s' := fold_left (perform modifier saveOutcome) times s in
            (persistenceCalls (world s) <= persistenceCalls (world s'))%nat
            /\ (persistenceCalls (world s') + List.length (sleeping s')
                <= persistenceCalls (world s) + List.length (sleeping s)
                   + List.length times)%nat).
  { induction times as [|t rest IH]; intros s; cbn [fold_left List.length].
    - lia.
    - destruct (perform_at_most modifier saveOutcome s t) as [Hmono Hstep].
      destruct (IH (perform modifier saveOutcome s t)) as [Hmono' Hrest]. lia. }
  destruct (Hfold {| sleeping := []; world := w |}) as [Hmono Hcount].
  cbn [world sleeping List.length] in Hmono, Hcount.
  unfold settle. cbn [world].
  pose proof (resume_many_at_most saveOutcome
                (sleeping (fold_left (perform modifier saveOutcome) times
                                     {| sleeping := []; world := w |}))
                (world (fold_left (perform modifier saveOutcome) times
                                  {| sleeping := []; world := w |}))).
  lia.
Qed.

(** X14.  However the input events are timed, and whatever state the
    component is in, performing [onInput] never removes a persistence call and
    never leads to more persistence calls than there were input events. *)
Theorem inputs_at_most_one_save_each (saveOutcome : Settled unit) (times : list Z)
    (w : World) :
  (persistenceCalls w
   <= persistenceCalls (inputs onInput_modifier saveOutcome times w)
   <= persistenceCalls w + List.length times)%nat.
Proof. exact (inputs_at_most onInput_modifier saveOutcome times w). Qed.

(** X15.  While there is no current page manager, input events have no
    effect at all, however many there are and however they are timed. *)
Theorem inputs_without_page_manager (saveOutcome : Settled unit) (times : list Z)
    (w : World) :
  currentPageManager (this w) = None ->
  inputs onInput_modifier saveOutcome times w = w.
Proof.
  intros Hnone.
  assert (Hresume : resume saveOutcome w = w).
  { unfold resume. rewrite onInput_unfold, Hnone. reflexivity. }
  assert (Hmany : forall instances : list Z,
            fold_left (fun w _ => resume saveOutcome w) instances w = w).
  { induction instances as [|t rest IH]; cbn [fold_left]; [reflexivity|].
    rewrite Hresume. exact IH. }
  unfold inputs, settle. cbn [world].
  assert (Hfold : forall s, world s = w ->
            world (fold_left (perform onInput_modifier saveOutcome) times s) = w).
  { induction times as [|t rest IH]; intros s Hs; cbn [fold_left]; [exact Hs|].
    apply IH. unfold perform, advance. cbn [world]. rewrite Hs. apply Hmany. }
  rewrite (Hfold {| sleeping := []; world := w |} eq_refl). apply Hmany.
Qed.

Lemma inputs_without_page_manager_witness :
  inputs onInput_modifier (Fulfilled tt) [0; 100; 900] (Sample.ready_world 3)
  = Sample.ready_world 3.
Proof.
  apply inputs_without_page_manager. reflexivity.
Defined.

(** ** Computed properties of the [Node] model *)

(** X16.  [nodeType] is [Registration] exactly for records of the
    [registration] model, whether or not they are forks; among the other
    records it is [Fork] exactly for the forks and [Generic] for the rest.  A
    project is never of type [Registration], and the [registration] attribute
    plays no part. *)
Theorem nodeType_cases (n : Node.t) :
  (Node.nodeType n = Node.Registration <-> Node.modelName n = "registration")
  /\ (Node.nodeType n = Node.Fork <->
      Node.modelName n ≠ "registration" /\ Node.fork n = true)
  /\ (Node.nodeType n = Node.Generic <->
      Node.modelName n ≠ "registration" /\ Node.fork n = false)
  /\ (Node.isProject n = true -> Node.nodeType n ≠ Node.Registration)
  /\ (forall flag : bool,
        Node.nodeType
          {| Node.modelName := Node.modelName n; Node.fork := Node.fork n;
             Node.registration := flag;
             Node.currentUserPermissions := Node.currentUserPermissions n |}
        = Node.nodeType n).
Proof.
  unfold Node.nodeType, Node.isRegistration, Node.isProject, Node.isFork.
  destruct n as [model fork registration perms].
  cbn [Node.modelName Node.fork Node.registration Node.currentUserPermissions].
  destruct (decide (model = "registration")) as [Hreg | Hreg].
  - rewrite (bool_decide_eq_true_2 _ Hreg).
    split; [split; [intros _; exact Hreg | reflexivity]|].
    split; [split; [discriminate | intros [Hne _]; contradiction]|].
    split; [split; [discriminate | intros [Hne _]; contradiction]|].
    split; [|reflexivity].
    intros Hproject. apply bool_decide_eq_true_1 in Hproject.
    rewrite Hreg in Hproject. discriminate Hproject.
  - rewrite (bool_decide_eq_false_2 _ Hreg). destruct fork.
    + split; [split; [discriminate | contradiction]|].
      split; [split; [intros _; split; [exact Hreg | reflexivity] | reflexivity]|].
      split; [split; [discriminate | intros [_ ?]; discriminate]|].
      split; [discriminate | reflexivity].
    + split; [split; [discriminate | contradiction]|].
      split; [split; [discriminate | intros [_ ?]; discriminate]|].
      split; [split; [intros _; split; [exact Hreg | reflexivity] | reflexivity]|].
      split; [discriminate | reflexivity].
Qed.

Lemma nodeType_cases_witness :
  Node.nodeType {| Node.modelName := "node"; Node.fork := true;
                   Node.registration := true;
                   Node.currentUserPermissions := None |} ≠ Node.Registration.
Proof.
  apply (proj1 (proj2 (proj2 (proj2 (nodeType_cases _))))). reflexivity.
Defined.

(** X17.  The two permission flags are read off the permission list
    independently of each other: taking the write permission out of the list
    clears [currentUserCanEdit] and leaves [currentUserIsAdmin] as it was, and
    both flags are off when the permissions are not an array. *)
Theorem permission_flags_independent (n : Node.t) :
  (Node.currentUserPermissions n = None ->
   Node.currentUserCanEdit n = false /\ Node.currentUserIsAdmin n = false)
  /\ (forall perms : list Node.Permission,
        Node.currentUserPermissions n = Some perms ->
        let n' := {| Node.modelName := Node.modelName n; Node.fork := Node.fork n;
                     Node.registration := Node.registration n;
                     Node.currentUserPermissions :=
                       Some (filter (fun p => p ≠ Node.Write) perms) |} in
        Node.currentUserCanEdit n' = false
        /\ Node.currentUserIsAdmin n' = Node.currentUserIsAdmin n).
Proof.
  unfold Node.currentUserCanEdit, Node.currentUserIsAdmin, Node.hasPermission.
  split.
  - intros ->. split; reflexivity.
  - intros perms ->. cbn. split.
    + apply bool_decide_eq_false_2. rewrite list_elem_of_filter. intros [Hne _].
      apply Hne. reflexivity.
    + apply bool_decide_ext. rewrite list_elem_of_filter. split.
      * intros [_ Hin]. exact Hin.
      * intros Hin. split; [discriminate | exact Hin].
Qed.

Lemma permission_flags_independent_witness :
  let n := {| Node.modelName := "node"; Node.fork := false; Node.registration := false;
              Node.currentUserPermissions := Some [Node.Read; Node.Write; Node.Admin] |} in
  let n' := {| Node.modelName := "node"; Node.fork := false; Node.registration := false;
               Node.currentUserPermissions := Some [Node.Read; Node.Admin] |} in
  Node.currentUserCanEdit n' = false
  /\ Node.currentUserIsAdmin n' = Node.currentUserIsAdmin n.
Proof.
  exact (proj2 (permission_flags_independent
                  {| Node.modelName := "node"; Node.fork := false;
                     Node.registration := false;
                     Node.currentUserPermissions :=
                       Some [Node.Read; Node.Write; Node.Admin] |})
               [Node.Read; Node.Write; Node.Admin] eq_refl).
Defined.
